(** * Job description generator: the form front end and the term emphasizer

    A shallow embedding of [Frontend/src/main.tsx] (the React component
    [App]: form state, validation, change handlers, submission, clipboard
    and reset) together with a model of the back end's term emphasizer,
    followed by the properties established about them.

    Conventions.
    - A JavaScript string is the list of its UTF-16 code units ([list N]);
      [js "..."] writes an ASCII literal.  Property names (object keys) are
      Rocq strings.
    - A JavaScript object used as a record or dictionary is a finite map
      from property names to values ([gmap string _]); a lookup is an
      own-property lookup.
    - A JavaScript number is [NaN], an infinity, or a finite value kept as
      an exact rational; the rounding to binary64 is not modelled and the
      two zeros are identified (no operation of the component tells them
      apart). *)

From Stdlib Require Import ZArith NArith QArith Lia.
From Stdlib Require Import Strings.String Strings.Ascii Numbers.DecimalString.
From stdpp Require Import base option list gmap strings.

Local Open Scope N_scope.

(** ** JavaScript strings *)

Abbreviation jsstring := (list N) (only parsing).

Definition js (s : string) : jsstring :=
  map N_of_ascii (list_ascii_of_string s).

(** ECMAScript [WhiteSpace] and [LineTerminator] code points, the set
    stripped by [String.prototype.trim]. *)
Definition isWhiteSpace (c : N) : bool :=
  ((9 <=? c) && (c <=? 13))          (* TAB LF VT FF CR *)
  || (c =? 32) || (c =? 160)         (* SP, NBSP *)
  || (c =? 5760)                     (* U+1680 *)
  || ((8192 <=? c) && (c <=? 8202))  (* U+2000 .. U+200A *)
  || (c =? 8232) || (c =? 8233)      (* LS, PS *)
  || (c =? 8239) || (c =? 8287)      (* U+202F, U+205F *)
  || (c =? 12288) || (c =? 65279).   (* U+3000, U+FEFF *)

Fixpoint trimStart (s : jsstring) : jsstring :=
  match s with
  | c :: s' => if isWhiteSpace c then trimStart s' else s
  | [] => []
  end.

Definition trimEnd (s : jsstring) : jsstring := rev (trimStart (rev s)).

(** [s.trim()] *)
Definition trim (s : jsstring) : jsstring := trimEnd (trimStart s).

(** [s.split(sep)] for a one-unit separator: [cur] is the piece being
    read.  The empty string splits into one empty piece. *)
Fixpoint split_from (sep : N) (cur s : jsstring) : list jsstring :=
  match s with
  | [] => [cur]
  | c :: s' =>
      if c =? sep then cur :: split_from sep [] s'
      else split_from sep (cur ++ [c]) s'
  end.

Definition split (sep : N) (s : jsstring) : list jsstring :=
  split_from sep [] s.

(** [pieces.join(sep)] *)
Fixpoint join (sep : jsstring) (pieces : list jsstring) : jsstring :=
  match pieces with
  | [] => []
  | [p] => p
  | p :: ps => p ++ sep ++ join sep ps
  end.

Definition comma : N := 44.

(** ** JavaScript numbers *)

Inductive number :=
  | NaN
  | Inf (negative : bool)
  | Num (q : Q).

Definition zero : number := Num 0.

(** [a < b]: false as soon as one side is [NaN]. *)
Definition number_lt (a b : number) : bool :=
  match a, b with
  | NaN, _ | _, NaN => false
  | Inf na, Inf nb => na && negb nb
  | Inf na, Num _ => na
  | Num _, Inf nb => negb nb
  | Num p, Num q => match (p ?= q)%Q with Lt => true | _ => false end
  end.

(** *** Numeric literals

    [scan_decimal] reads the longest prefix that is a [StrDecimalLiteral]
    (sign, [Infinity] or digits with optional fraction and exponent) and
    returns its value with the unread rest. *)

Definition digit (c : N) : option N :=
  if (48 <=? c) && (c <=? 57) then Some (c - 48) else None.

(** Digits of base [b] read so far ([acc]), how many ([cnt]), the rest. *)
Fixpoint digits_from (b : N) (dig : N -> option N) (acc : N) (cnt : nat)
    (s : jsstring) : N * nat * jsstring :=
  match s with
  | c :: s' =>
      match dig c with
      | Some d => digits_from b dig (acc * b + d) (S cnt) s'
      | None => (acc, cnt, s)
      end
  | [] => (acc, cnt, [])
  end.

Definition read_sign (s : jsstring) : bool * jsstring :=
  match s with
  | 43 :: s' => (false, s')
  | 45 :: s' => (true, s')
  | _ => (false, s)
  end.

(** The exponent part [e±ddd], when it is well formed. *)
Definition read_exponent (s : jsstring) : Z * jsstring :=
  match s with
  | c :: s' =>
      if (c =? 101) || (c =? 69) then
        let '(neg, s'') := read_sign s' in
        let '(e, cnt, rest) := digits_from 10 digit 0 0 s'' in
        match cnt with
        | O => (0%Z, s)
        | _ => ((if neg then - Z.of_N e else Z.of_N e)%Z, rest)
        end
      else (0%Z, s)
  | [] => (0%Z, s)
  end.

Fixpoint starts_with (p s : jsstring) : option jsstring :=
  match p, s with
  | [], _ => Some s
  | a :: p', b :: s' => if a =? b then starts_with p' s' else None
  | _ :: _, [] => None
  end.

Definition scan_decimal (s : jsstring) : option (number * jsstring) :=
  let '(neg, s1) := read_sign s in
  match starts_with (js "Infinity") s1 with
  | Some rest => Some (Inf neg, rest)
  | None =>
      let '(ip, icnt, s2) := digits_from 10 digit 0 0 s1 in
      let '(fp, fcnt, s3) :=
        match s2 with
        | 46 :: s2' =>
            let '(fp, fcnt, s3) := digits_from 10 digit 0 0 s2' in
            match icnt, fcnt with
            | O, O => (0, O, s2)
            | _, _ => (fp, fcnt, s3)
            end
        | _ => (0, O, s2)
        end in
      match icnt, fcnt with
      | O, O => None
      | _, _ =>
          let '(e, rest) := read_exponent s3 in
          let mant := (inject_Z (Z.of_N ip)
                       + inject_Z (Z.of_N fp) / inject_Z (10 ^ Z.of_nat fcnt))%Q in
          let v := (mant * Qpower (inject_Z 10) e)%Q in
          Some (Num (if neg then Qopp v else v), rest)
      end
  end.

(** [parseFloat(s)] *)
Definition parseFloat (s : jsstring) : number :=
  match scan_decimal (trimStart s) with
  | Some (n, _) => n
  | None => NaN
  end.

Definition hex_digit (c : N) : option N :=
  if (48 <=? c) && (c <=? 57) then Some (c - 48)
  else if (97 <=? c) && (c <=? 102) then Some (c - 87)
  else if (65 <=? c) && (c <=? 70) then Some (c - 55)
  else None.

Definition octal_digit (c : N) : option N :=
  if (48 <=? c) && (c <=? 55) then Some (c - 48) else None.

Definition binary_digit (c : N) : option N :=
  if (48 <=? c) && (c <=? 49) then Some (c - 48) else None.

(** [0x..], [0o..], [0b..] (no sign, at least one digit, whole string). *)
Definition non_decimal_literal (s : jsstring) : option number :=
  match s with
  | 48 :: p :: s' =>
      let read b dig :=
        match digits_from b dig 0 0 s' with
        | (v, S _, []) => Some (Num (inject_Z (Z.of_N v)))
        | _ => None
        end in
      if (p =? 120) || (p =? 88) then read 16 hex_digit
      else if (p =? 111) || (p =? 79) then read 8 octal_digit
      else if (p =? 98) || (p =? 66) then read 2 binary_digit
      else None
  | _ => None
  end.

(** [StringToNumber]: the conversion [Number(s)] applies to a string. *)
Definition StringToNumber (s : jsstring) : number :=
  match trim s with
  | [] => zero
  | t =>
      match non_decimal_literal t with
      | Some n => n
      | None =>
          match scan_decimal t with
          | Some (n, []) => n
          | _ => NaN
          end
      end
  end.

(** ** JavaScript values *)

(** The values the component handles.  [VArray] is an array of strings
    (the skills); [VObject] stands for any other object. *)
Inductive jsval :=
  | VUndefined
  | VNull
  | VBool (b : bool)
  | VNumber (n : number)
  | VString (s : jsstring)
  | VArray (items : list jsstring)
  | VObject.

(** [ToBoolean] *)
Definition truthy (v : jsval) : bool :=
  match v with
  | VUndefined | VNull => false
  | VBool b => b
  | VNumber NaN => false
  | VNumber (Inf _) => true
  | VNumber (Num q) => negb (Qeq_bool q 0)
  | VString [] => false
  | VString (_ :: _) => true
  | VArray _ | VObject => true
  end.

(** [a || b] *)
Definition or_else (a b : jsval) : jsval := if truthy a then a else b.

(** [Number(v)]; an array converts through its [join(",")]. *)
Definition Number (v : jsval) : number :=
  match v with
  | VUndefined => NaN
  | VNull => zero
  | VBool b => if b then Num 1 else zero
  | VNumber n => n
  | VString s => StringToNumber s
  | VArray items => StringToNumber (join [comma] items)
  | VObject => NaN
  end.

Definition number_eq (a b : number) : bool :=
  match a, b with
  | Num p, Num q => Qeq_bool p q
  | Inf na, Inf nb => Bool.eqb na nb
  | _, _ => false
  end.

Definition string_eq (a b : jsstring) : bool := bool_decide (a = b).

(** [a === b] against a primitive: objects are equal by identity only,
    and every use below has a literal on one side. *)
Definition strict_equal (a b : jsval) : bool :=
  match a, b with
  | VUndefined, VUndefined | VNull, VNull => true
  | VBool x, VBool y => Bool.eqb x y
  | VNumber x, VNumber y => number_eq x y
  | VString x, VString y => string_eq x y
  | _, _ => false
  end.

(** [o.k] on an object given by its own properties. *)
Definition prop (o : gmap string jsval) (k : string) : jsval :=
  default VUndefined (o !! k).

(** A method call or property read that raises [TypeError] is [None]. *)

(** [v.trim()] *)
Definition trim_of (v : jsval) : option jsstring :=
  match v with
  | VString s => Some (trim s)
  | _ => None
  end.

(** [v.length] *)
Definition length_of (v : jsval) : option jsval :=
  match v with
  | VString s => Some (VNumber (Num (inject_Z (Z.of_nat (length s)))))
  | VArray items => Some (VNumber (Num (inject_Z (Z.of_nat (length items)))))
  | VUndefined | VNull => None
  | VBool _ | VNumber _ | VObject => Some VUndefined
  end.

(** ** The state of [App] *)

Record AppState := {
  formData : gmap string jsval;
  loading : bool;
  result : jsval;
  error : jsval;
  success : jsstring;
  copied : bool;
  formErrors : gmap string jsstring;
  rawResult : jsval
}.

Definition setFormData (f : gmap string jsval -> gmap string jsval) (st : AppState) :=
  {| formData := f st.(formData); loading := st.(loading); result := st.(result);
     error := st.(error); success := st.(success); copied := st.(copied);
     formErrors := st.(formErrors); rawResult := st.(rawResult) |}.

Definition setLoading (b : bool) (st : AppState) :=
  {| formData := st.(formData); loading := b; result := st.(result);
     error := st.(error); success := st.(success); copied := st.(copied);
     formErrors := st.(formErrors); rawResult := st.(rawResult) |}.

Definition setResult (v : jsval) (st : AppState) :=
  {| formData := st.(formData); loading := st.(loading); result := v;
     error := st.(error); success := st.(success); copied := st.(copied);
     formErrors := st.(formErrors); rawResult := st.(rawResult) |}.

Definition setError (v : jsval) (st : AppState) :=
  {| formData := st.(formData); loading := st.(loading); result := st.(result);
     error := v; success := st.(success); copied := st.(copied);
     formErrors := st.(formErrors); rawResult := st.(rawResult) |}.

Definition setSuccess (s : jsstring) (st : AppState) :=
  {| formData := st.(formData); loading := st.(loading); result := st.(result);
     error := st.(error); success := s; copied := st.(copied);
     formErrors := st.(formErrors); rawResult := st.(rawResult) |}.

Definition setCopied (b : bool) (st : AppState) :=
  {| formData := st.(formData); loading := st.(loading); result := st.(result);
     error := st.(error); success := st.(success); copied := b;
     formErrors := st.(formErrors); rawResult := st.(rawResult) |}.

Definition setFormErrors (f : gmap string jsstring -> gmap string jsstring)
    (st : AppState) :=
  {| formData := st.(formData); loading := st.(loading); result := st.(result);
     error := st.(error); success := st.(success); copied := st.(copied);
     formErrors := f st.(formErrors); rawResult := st.(rawResult) |}.

Definition setRawResult (v : jsval) (st : AppState) :=
  {| formData := st.(formData); loading := st.(loading); result := st.(result);
     error := st.(error); success := st.(success); copied := st.(copied);
     formErrors := st.(formErrors); rawResult := v |}.

(** The object [useState] starts from (the deadline is filled in by the
    mount effect). *)
Definition blank_form (deadline : jsstring) : gmap string jsval :=
  list_to_map [
    ("job_title", VString []);
    ("company_name", VString []);
    ("location", VString []);
    ("workplace", VString []);
    ("skills", VArray []);
    ("min_experience_years", VNumber zero);
    ("exp_level_category", VString []);
    ("min_salary", VNull);
    ("max_salary", VNull);
    ("deadline", VString deadline);
    ("notes", VString []);
    ("qualification_details", VString []);
    ("benefits_details", VString []);
    ("style_preference", VString (js "LinkedIn"));
    ("output_length_preference", VString (js "Standard"))
  ]%string.

Definition initial_state : AppState :=
  {| formData := blank_form []; loading := false; result := VString [];
     error := VString []; success := []; copied := false;
     formErrors := ∅; rawResult := VString [] |}.

(** ** Form validation *)

(** [if (c) errors[k] = msg] *)
Definition report (c : bool) (k msg : string) (errors : gmap string jsstring) :=
  if c then <[k := js msg]> errors else errors.

(** The [errors] object [validateForm] builds, rule by rule. *)
Definition form_errors (formData : gmap string jsval) : option (gmap string jsstring) :=
  let errors : gmap string jsstring := ∅ in
  job_title ← trim_of (prop formData "job_title");
  let errors := report (negb (truthy (VString job_title)))
    "job_title" "Job title is required" errors in
  company_name ← trim_of (prop formData "company_name");
  let errors := report (negb (truthy (VString company_name)))
    "company_name" "Company name is required" errors in
  location ← trim_of (prop formData "location");
  let errors := report (negb (truthy (VString location)))
    "location" "Location is required" errors in
  let errors := report (negb (truthy (prop formData "workplace")))
    "workplace" "Workplace type is required" errors in
  skills_length ← length_of (prop formData "skills");
  let errors := report (strict_equal skills_length (VNumber zero))
    "skills" "At least one skill is required (comma-separated)" errors in
  let errors := report
    (strict_equal (prop formData "min_experience_years") (VString [])
     || number_lt (Number (prop formData "min_experience_years")) zero)
    "min_experience_years" "Valid minimum experience (0 or more) is required" errors in
  let errors := report (negb (truthy (prop formData "exp_level_category")))
    "exp_level_category" "Experience level is required" errors in
  Some errors.

(** [validateForm()]: stores the errors and tells whether there were none. *)
Definition validateForm (st : AppState) : option (bool * AppState) :=
  errors ← form_errors st.(formData);
  Some (Nat.eqb (size errors) 0, setFormErrors (λ _, errors) st).

(** ** Change handlers *)

(** What the handlers read of a change event: [e.target.name],
    [e.target.value], [e.target.type]. *)
Record ChangeEvent := {
  name : string;
  value : jsstring;
  type : string
}.

(** [formErrors[name]] used as a condition. *)
Definition has_error (errors : gmap string jsstring) (k : string) : bool :=
  match errors !! k with
  | Some msg => truthy (VString msg)
  | None => false
  end.

Definition handleInputChange (e : ChangeEvent) (st : AppState) : AppState :=
  let processedValue :=
    if String.eqb e.(type) "number" then
      if String.eqb e.(name) "min_salary" || String.eqb e.(name) "max_salary" then
        if string_eq e.(value) [] then VNull else VNumber (parseFloat e.(value))
      else if String.eqb e.(name) "min_experience_years" then
        if string_eq e.(value) [] then VString [] else VNumber (parseFloat e.(value))
      else VNumber (parseFloat e.(value))
    else VString e.(value) in
  let st' := setFormData (λ prev, <[e.(name) := processedValue]> prev) st in
  if has_error st.(formErrors) e.(name) then
    setFormErrors (λ prev, delete e.(name) prev) st'
  else st'.

(** The array [handleSkillsChange] stores. *)
Definition skillsArray (value : jsstring) : list jsstring :=
  filter (λ skill, skill ≠ []) (trim <$> split comma value).

Definition handleSkillsChange (value : jsstring) (st : AppState) : AppState :=
  let st' := setFormData (λ prev, <["skills" := VArray (skillsArray value)]> prev) st in
  if has_error st.(formErrors) "skills" then
    setFormErrors (λ prev, delete "skills" prev) st'
  else st'.

(** ** Submission *)

(** A call of [fetch]: address, method and the object whose JSON text is
    the body. *)
Record Request := {
  url : string;
  method : string;
  body : gmap string jsval
}.

(** How the call ends: it rejects, or a response arrives with a status
    and a body.  The body is [None] when [response.json()] rejects or
    yields [null] (reading a property of it then raises); otherwise it is
    the object's properties (none for a primitive). *)
Inductive FetchOutcome :=
  | NetworkError
  | Response (status : N) (data : option (gmap string jsval)).

(** [response.ok] *)
Definition ok (status : N) : bool := (200 <=? status) && (status <=? 299).

Definition decimal (n : N) : jsstring :=
  js (DecimalString.NilZero.string_of_uint (N.to_uint n)).

(** [x === null ? 0 : Number(x)] *)
Definition salary_or_zero (x : jsval) : jsval :=
  VNumber (if strict_equal x VNull then zero else Number x).

(** The object [handleSubmit] sends. *)
Definition payload (formData : gmap string jsval) : gmap string jsval :=
  <["min_experience_years" := VNumber (Number (prop formData "min_experience_years"))]>
    (<["max_salary" := salary_or_zero (prop formData "max_salary")]>
      (<["min_salary" := salary_or_zero (prop formData "min_salary")]> formData)).

Definition generate_request (formData : gmap string jsval) : Request :=
  {| url := "http://localhost:8000/generate_job_description";
     method := "POST";
     body := payload formData |}.

(** The part of [handleSubmit] that follows the [await]s. *)
Definition receive (outcome : FetchOutcome) (st : AppState) : AppState :=
  match outcome with
  | Response status (Some data) =>
      if ok status && strict_equal (prop data "status") (VString (js "success")) then
        let st := setResult (prop data "job_description") st in
        let st := setRawResult
          (or_else (prop data "raw_description") (prop data "job_description")) st in
        setSuccess (js "Job description generated successfully!") st
      else
        setError
          (or_else (or_else (prop data "message") (prop data "detail"))
             (VString (js "An error occurred (Status: " ++ decimal status
                       ++ js "). Please check inputs."))) st
  | _ =>
      setError (VString (js "Failed to connect to the server. Please ensure the backend is running and accessible at http://localhost:8000.")) st
  end.

(** [handleSubmit]: the state it leaves and the requests it issued.
    [fetch] answers a request.  When validation raises, the handler's
    promise rejects before anything else happens. *)
Definition handleSubmit (fetch : Request -> FetchOutcome) (st : AppState)
    : AppState * list Request :=
  match validateForm st with
  | None => (st, [])
  | Some (false, st) => (st, [])
  | Some (true, st) =>
      let st := setLoading true st in
      let st := setError (VString []) st in
      let st := setSuccess [] st in
      let st := setResult (VString []) st in
      let st := setRawResult (VString []) st in
      let request := generate_request st.(formData) in
      let st := receive (fetch request) st in
      (setLoading false st, [request])
  end.

(** ** Clipboard *)

(** [handleCopyToClipboard]: the state it leaves and what it hands to
    [navigator.clipboard.writeText], if anything.  [written] tells whether
    the write succeeds.  The timer that hides the confirmation two seconds
    later is [hide_copied]. *)
Definition handleCopyToClipboard (written : bool) (st : AppState)
    : AppState * option jsval :=
  if negb (truthy st.(rawResult)) then (st, None)
  else
    (if written then setCopied true st
     else setError (VString (js "Failed to copy text to clipboard.")) st,
     Some st.(rawResult)).

Definition hide_copied (st : AppState) : AppState := setCopied false st.

(** ** Dates

    A [Date] holds a time value: milliseconds since the epoch, UTC.  The
    functions below are the ECMAScript date operations the component
    reaches through [new Date], [getDate], [setDate] and [toISOString].
    The calendar is the proleptic Gregorian one, computed from the day
    number by eras of 400 years starting on 1 March. *)

Module Date.
Local Open Scope Z_scope.

Definition msPerDay : Z := 86400000.

Definition Day (t : Z) : Z := t / msPerDay.
Definition TimeWithinDay (t : Z) : Z := t mod msPerDay.

(** A time value outside ±8.64e15 is an invalid date. *)
Definition TimeClip (t : Z) : option Z :=
  if Z.abs t <=? 8640000000000000 then Some t else None.

(** Year, month (1..12) and day of month (1..31) of a day number. *)
Definition civil_from_days (z : Z) : Z * Z * Z :=
  let z := z + 719468 in
  let era := z / 146097 in
  let doe := z mod 146097 in
  let yoe := (doe - doe / 1460 + doe / 36524 - doe / 146096) / 365 in
  let doy := doe - (365 * yoe + yoe / 4 - yoe / 100) in
  let mp := (5 * doy + 2) / 153 in
  let d := doy - (153 * mp + 2) / 5 + 1 in
  let m := if mp <? 10 then mp + 3 else mp - 9 in
  (yoe + era * 400 + (if m <=? 2 then 1 else 0), m, d).

(** The day number of a year, month (1..12) and day of month. *)
Definition days_from_civil (y m d : Z) : Z :=
  let y := y - (if m <=? 2 then 1 else 0) in
  let era := y / 400 in
  let yoe := y mod 400 in
  let doy := (153 * (if 2 <? m then m - 3 else m + 9) + 2) / 5 + d - 1 in
  let doe := yoe * 365 + yoe / 4 - yoe / 100 + doy in
  era * 146097 + doe - 719468.

Definition YearFromTime (t : Z) : Z := (civil_from_days (Day t)).1.1.
(** Months count from 0 here, as in [getMonth]. *)
Definition MonthFromTime (t : Z) : Z := (civil_from_days (Day t)).1.2 - 1.
Definition DateFromTime (t : Z) : Z := (civil_from_days (Day t)).2.

Definition MakeDay (year month date : Z) : Z :=
  let ym := year + month / 12 in
  let mn := month mod 12 in
  days_from_civil ym (mn + 1) 1 + date - 1.

Definition MakeDate (day time : Z) : Z := day * msPerDay + time.

Section LocalTime.
(** The host's offset of local time from UTC, in milliseconds: at a UTC
    time value ([true]) or at a local one ([false]). *)
Variable LocalTZA : Z -> bool -> Z.

Definition LocalTime (t : Z) : Z := t + LocalTZA t true.
Definition UTC (t : Z) : Z := t - LocalTZA t false.

(** [d.getDate()] *)
Definition getDate (t : Z) : Z := DateFromTime (LocalTime t).

(** [d.setDate(date)]: the new time value of [d]. *)
Definition setDate (t date : Z) : option Z :=
  let t := LocalTime t in
  let newDate :=
    MakeDate (MakeDay (YearFromTime t) (MonthFromTime t) date) (TimeWithinDay t) in
  TimeClip (UTC newDate).
End LocalTime.

(** [w] decimal digits of [n], zero padded. *)
Fixpoint pad (w : nat) (n : N) : jsstring :=
  match w with
  | O => []
  | S w' => pad w' (n / 10)%N ++ [(48 + n mod 10)%N]
  end.

Definition padZ (w : nat) (n : Z) : jsstring := pad w (Z.to_N n).

(** The year of an ISO string: four digits, or a sign and six. *)
Definition iso_year (y : Z) : jsstring :=
  if (0 <=? y) && (y <=? 9999) then padZ 4 y
  else (if y <? 0 then 45%N else 43%N) :: padZ 6 (Z.abs y).

(** [YYYY-MM-DD] of a day number. *)
Definition iso_date (day : Z) : jsstring :=
  let '(y, m, d) := civil_from_days day in
  iso_year y ++ [45%N] ++ padZ 2 m ++ [45%N] ++ padZ 2 d.

(** [HH:mm:ss.sss] of a time within the day. *)
Definition iso_time (ms : Z) : jsstring :=
  padZ 2 (ms / 3600000) ++ [58%N] ++ padZ 2 (ms / 60000 mod 60) ++ [58%N]
  ++ padZ 2 (ms / 1000 mod 60) ++ [46%N] ++ padZ 3 (ms mod 1000).

(** [d.toISOString()] of a valid date. *)
Definition toISOString (t : Z) : jsstring :=
  iso_date (Day t) ++ [84%N] ++ iso_time (TimeWithinDay t) ++ [90%N].

(** [d.toISOString().split("T")[0]] *)
Definition date_part (t : Z) : jsstring :=
  match split 84%N (toISOString t) with
  | p :: _ => p
  | [] => []
  end.

(** [new Date(t)] for a number [t]: the time value, or an invalid date. *)
Definition new_Date (t : Z) : option Z := TimeClip t.
End Date.

(** ** Default deadline *)

(** The date the mount effect computes; [now] is the time value of
    [new Date()].  [None] when [toISOString] raises [RangeError]. *)
Definition mount_deadline (LocalTZA : Z -> bool -> Z) (now : Z) : option jsstring :=
  let today := now in
  thirtyDaysFromNow ← Date.setDate LocalTZA today (Date.getDate LocalTZA today + 30);
  Some (Date.date_part thirtyDaysFromNow).

(** The effect run once on mount. *)
Definition mount_effect (LocalTZA : Z -> bool -> Z) (now : Z) (st : AppState)
    : option AppState :=
  formattedDate ← mount_deadline LocalTZA now;
  Some (setFormData (λ prev, <["deadline" := VString formattedDate]> prev) st).

(** The date [handleResetForm] computes; [now] is [Date.now()]. *)
Definition reset_deadline (now : Z) : option jsstring :=
  d ← Date.new_Date (now + 30 * 24 * 60 * 60 * 1000);
  Some (Date.date_part d).

Definition handleResetForm (now : Z) (st : AppState) : option AppState :=
  deadline ← reset_deadline now;
  let st := setFormData (λ _, blank_form deadline) st in
  let st := setFormErrors (λ _, ∅) st in
  let st := setResult (VString []) st in
  let st := setRawResult (VString []) st in
  let st := setError (VString []) st in
  let st := setSuccess [] st in
  Some (setCopied false st).

(** ** The term emphasizer *)

(** Modelled from the spec: the Term Emphasizer of the generation back
    end (the [flask_app.py] the scripts start), which is not among the
    sources.  The definitions follow the algorithm of the design's
    section 4.4 step by step: candidate terms are the case-folded skills
    and keywords; the text is scanned left to right; at each position the
    longest candidate that matches on word boundaries is taken, emitted as
    one bold segment, and the scan resumes after it.  The two renderings
    write the same segments, with bold markers and markup escaping for
    HTML, without either for the plain text.  Letters and digits are the
    ASCII ones. *)
Module Emphasizer.

Definition is_alnum (c : N) : bool :=
  ((48 <=? c) && (c <=? 57)) || ((65 <=? c) && (c <=? 90))
  || ((97 <=? c) && (c <=? 122)).

Definition fold_case (c : N) : N :=
  if (65 <=? c) && (c <=? 90) then c + 32 else c.

Definition casefold (s : jsstring) : jsstring := map fold_case s.

(** Step 1: the candidate term set. *)
Definition candidates (skills keywords : list jsstring) : list jsstring :=
  remove_dups (filter (λ t, t ≠ []) (casefold <$> skills ++ keywords)).

Definition word_char (c : option N) : bool :=
  match c with
  | Some c => is_alnum c
  | None => false
  end.

(** The position between [l] and [r] is inside a word. *)
Definition mid_word (l r : option N) : bool := word_char l && word_char r.

(** [term] (case-folded) is a prefix of [s] up to case: the rest of [s]. *)
Fixpoint match_prefix (term s : jsstring) : option jsstring :=
  match term, s with
  | [], _ => Some s
  | a :: term', b :: s' =>
      if a =? fold_case b then match_prefix term' s' else None
  | _ :: _, [] => None
  end.

(** Step 2: [term] matches at the position that has [prev] before it and
    [rest] from it on, and neither begins nor ends inside a word. *)
Definition matches_at (term : jsstring) (prev : option N) (rest : jsstring) : bool :=
  match term, match_prefix term rest with
  | _ :: _, Some after =>
      negb (mid_word prev (head rest))
      && negb (mid_word (last (take (length term) rest)) (head after))
  | _, _ => false
  end.

(** The longest candidate matching at a position (the first of several
    of that length). *)
Fixpoint longest_match (terms : list jsstring) (prev : option N) (rest : jsstring)
    : option jsstring :=
  match terms with
  | [] => None
  | t :: terms' =>
      let best := longest_match terms' prev rest in
      if matches_at t prev rest then
        match best with
        | Some b => if (length t <? length b)%nat then best else Some t
        | None => Some t
        end
      else best
  end.

Inductive segment :=
  | Plain (c : N)
  | Bold (s : jsstring).

(** Steps 2 to 4: the scan.  [skip] counts the units still to pass of the
    span that was just emitted. *)
Fixpoint scan (terms : list jsstring) (prev : option N) (rest : jsstring)
    (skip : nat) : list segment :=
  match rest with
  | [] => []
  | c :: rest' =>
      match skip with
      | S k => scan terms (Some c) rest' k
      | O =>
          match longest_match terms prev rest with
          | Some t =>
              Bold (take (length t) rest)
              :: scan terms (Some c) rest' (length t - 1)
          | None => Plain c :: scan terms (Some c) rest' 0
          end
      end
  end.

Definition segments (raw_text : jsstring) (skills keywords : list jsstring)
    : list segment :=
  scan (candidates skills keywords) None raw_text 0.

(** Step 6: markup-significant characters. *)
Definition escape (c : N) : jsstring :=
  if c =? 38 then js "&amp;"
  else if c =? 60 then js "&lt;"
  else if c =? 62 then js "&gt;"
  else [c].

Definition escape_all (s : jsstring) : jsstring := concat (map escape s).

Definition html_of (g : segment) : jsstring :=
  match g with
  | Plain c => escape c
  | Bold s => js "<b>" ++ escape_all s ++ js "</b>"
  end.

Definition text_of (g : segment) : jsstring :=
  match g with
  | Plain c => [c]
  | Bold s => s
  end.

Definition html (segs : list segment) : jsstring := concat (map html_of segs).
Definition plain (segs : list segment) : jsstring := concat (map text_of segs).

Record GenerationResult := {
  raw_text : jsstring;
  emphasized_html : jsstring;
  emphasized_plain : jsstring
}.

Definition emphasize (raw : jsstring) (skills keywords : list jsstring)
    : GenerationResult :=
  let segs := segments raw skills keywords in
  {| raw_text := raw;
     emphasized_html := html segs;
     emphasized_plain := plain segs |}.

(** The success response of the pipeline (section 6). *)
Definition outbound_success (r : GenerationResult) : gmap string jsval :=
  list_to_map [
    ("status", VString (js "success"));
    ("job_description", VString r.(emphasized_html));
    ("raw_description", VString r.(emphasized_plain))
  ]%string.

End Emphasizer.

(** ** What the properties speak about *)

Definition job_title_required := js "Job title is required".
Definition skills_required := js "At least one skill is required (comma-separated)".
Definition experience_invalid := js "Valid minimum experience (0 or more) is required".






(** The names validation can report. *)
Definition validated_fields : list string :=
  ["job_title"; "company_name"; "location"; "workplace"; "skills";
   "min_experience_years"; "exp_level_category"]%string.

(** *** Sample states, reached through the handlers *)

Definition change (name value type : string) : ChangeEvent :=
  {| name := name; value := js value; type := type |}.

(** Noon UTC on 1 January 2023, and a host five hours east of UTC. *)
Definition sample_now : Z := 1672574400000.
Definition sample_zone : Z -> bool -> Z := λ _ _, 18000000%Z.

Definition mounted_state : AppState :=
  default initial_state (mount_effect sample_zone sample_now initial_state).

(** Every required field filled in; job title and skills still blank. *)
Definition partly_filled_state : AppState :=
  handleInputChange (change "exp_level_category" "Mid Level" "select-one")
    (handleInputChange (change "min_experience_years" "3" "number")
      (handleInputChange (change "workplace" "Remote" "select-one")
        (handleInputChange (change "location" "Lahore" "text")
          (handleInputChange (change "company_name" "Acme" "text")
            mounted_state)))).

Definition filled_state : AppState :=
  handleSkillsChange (js "Go, Docker")
    (handleInputChange (change "job_title" "Backend Engineer" "text")
      partly_filled_state).

(** Minimum salary 120000 with maximum salary 80000. *)
Definition inverted_salary_state : AppState :=
  handleInputChange (change "max_salary" "80000" "number")
    (handleInputChange (change "min_salary" "120000" "number") filled_state).



(** The date field emptied by the user. *)
Definition cleared_deadline_state : AppState :=
  handleInputChange (change "deadline" "" "date") filled_state.

(** A back end that answers with the emphasized form of [raw]. *)
Definition emphasizing_backend (raw : jsstring) (skills keywords : list jsstring)
    : Request -> FetchOutcome :=
  λ _, Response 200
         (Some (Emphasizer.outbound_success (Emphasizer.emphasize raw skills keywords))).
(** What [handleSkillsChange] keeps of each piece: not empty, no white
    space at either end, no comma. *)
Definition normalized_skill (s : list N) : Prop :=
  s ≠ []
  ∧ (∀ c, head s = Some c → isWhiteSpace c = false)
  ∧ (∀ c, last s = Some c → isWhiteSpace c = false)
  ∧ comma ∉ s.

(** ** What the page shows *)

(** The text of the skills box: [formData.skills.join(", ")]. *)
Definition skills_text (skills : list jsstring) : jsstring :=
  join (js ", ") skills.

(** The result panel is rendered: [result && !loading]. *)
Definition result_shown (st : AppState) : bool :=
  truthy st.(result) && negb st.(loading).

(** The copy button is disabled: [!rawResult]. *)
Definition copy_disabled (st : AppState) : bool :=
  negb (truthy st.(rawResult)).

(** The condition under which [handleSubmit] takes the answer for a
    success: [response.ok && data.status === "success"]. *)
Definition is_success (outcome : FetchOutcome) : bool :=
  match outcome with
  | Response status (Some data) =>
      ok status && strict_equal (prop data "status") (VString (js "success"))
  | _ => false
  end.

(** Whatever is shown as the result can be copied: a result that is not
    empty comes with a text to copy that is not empty. *)
Definition result_copyable (st : AppState) : Prop :=
  truthy st.(result) = true → truthy st.(rawResult) = true.

(** The value [handleInputChange] stores for an event (its
    [processedValue]). *)
Definition processedValue (e : ChangeEvent) : jsval :=
  if String.eqb e.(type) "number" then
    if String.eqb e.(name) "min_salary" || String.eqb e.(name) "max_salary" then
      if string_eq e.(value) [] then VNull else VNumber (parseFloat e.(value))
    else if String.eqb e.(name) "min_experience_years" then
      if string_eq e.(value) [] then VString [] else VNumber (parseFloat e.(value))
    else VNumber (parseFloat e.(value))
  else VString e.(value).

(** * Properties *)

(** ** Strings *)

Section Strings.
Implicit Types (s cur p : list N) (sep c : N).

Lemma split_from_nonempty sep cur s : split_from sep cur s ≠ [].
Proof.
  revert cur; induction s as [|c s IH]; intros cur; simpl; [done|].
  destruct (c =? sep); [done | apply IH].
Qed.

Lemma join_cons sep p ps :
  ps ≠ [] → join [sep] (p :: ps) = p ++ sep :: join [sep] ps.
Proof. by destruct ps. Qed.

(** Joining the pieces with the separator gives the string back. *)
Lemma join_split_from sep cur s :
  join [sep] (split_from sep cur s) = cur ++ s.
Proof.
  revert cur; induction s as [|c s IH]; intros cur; simpl.
  - by rewrite app_nil_r.
  - destruct (N.eqb_spec c sep) as [->|_].
    + rewrite join_cons by apply split_from_nonempty.
      by rewrite IH.
    + by rewrite IH, <- app_assoc.
Qed.

(** No piece contains the separator. *)
Lemma split_from_separator_free sep cur s :
  sep ∉ cur → Forall (λ p, sep ∉ p) (split_from sep cur s).
Proof.
  revert cur; induction s as [|c s IH]; intros cur Hcur; simpl.
  - by constructor.
  - destruct (N.eqb_spec c sep) as [->|Hne].
    + constructor; [done|]. apply IH. by intros ?%elem_of_nil.
    + apply IH. rewrite elem_of_app, list_elem_of_singleton. intros [?|?]; congruence.
Qed.

Lemma split_from_Forall (P : N → Prop) sep cur s :
  Forall P (cur ++ s) → Forall (Forall P) (split_from sep cur s).
Proof.
  revert cur; induction s as [|c s IH]; intros cur; simpl.
  - rewrite app_nil_r. by constructor.
  - intros H. destruct (c =? sep).
    + apply Forall_app in H as [Hcur Hs]. constructor; [done|].
      apply IH. simpl. by eapply Forall_cons_1.
    + apply IH. by rewrite <- app_assoc.
Qed.

Lemma join_Forall (P : N → Prop) sep ps :
  P sep → Forall (Forall P) ps → Forall P (join [sep] ps).
Proof.
  intros Hsep; induction 1 as [|p ps Hp Hps IH]; [constructor|].
  destruct ps as [|q ps]; [done|].
  rewrite join_cons by done.
  apply Forall_app; split; [done|]. by constructor.
Qed.

(** [trimStart] drops a run of white space from the front. *)
Lemma trimStart_split s :
  ∃ ws, s = ws ++ trimStart s ∧ Forall (λ c, isWhiteSpace c = true) ws.
Proof.
  induction s as [|c s (ws & Hs & Hws)]; simpl.
  - by exists [].
  - destruct (isWhiteSpace c) eqn:Hc.
    + exists (c :: ws). split; [by rewrite <- app_comm_cons, <- Hs | by constructor].
    + by exists [].
Qed.

Lemma trimStart_head s c :
  head (trimStart s) = Some c → isWhiteSpace c = false.
Proof.
  induction s as [|d s IH]; simpl; [done|].
  destruct (isWhiteSpace d) eqn:Hd; [done|].
  simpl. by intros [= <-].
Qed.

Lemma trimStart_nil s :
  trimStart s = [] ↔ Forall (λ c, isWhiteSpace c = true) s.
Proof.
  induction s as [|c s IH]; simpl; [by split|].
  destruct (isWhiteSpace c) eqn:Hc.
  - rewrite IH. split; [by constructor | by inversion 1].
  - split; [done|]. inversion 1; congruence.
Qed.

Lemma trimEnd_split s :
  ∃ ws, s = trimEnd s ++ ws ∧ Forall (λ c, isWhiteSpace c = true) ws.
Proof.
  destruct (trimStart_split (rev s)) as (ws & Hs & Hws).
  exists (rev ws). split; [|by apply Forall_rev].
  unfold trimEnd. by rewrite <- rev_app_distr, <- Hs, rev_involutive.
Qed.

Lemma last_rev_head s : last (rev s) = head s.
Proof. destruct s as [|c s]; [done|]. simpl. apply last_snoc. Qed.

Lemma trimEnd_last s c :
  last (trimEnd s) = Some c → isWhiteSpace c = false.
Proof.
  unfold trimEnd. rewrite last_rev_head. apply trimStart_head.
Qed.

(** A trimmed string is empty exactly when the string is all white
    space. *)
Lemma trim_nil s :
  trim s = [] ↔ Forall (λ c, isWhiteSpace c = true) s.
Proof.
  unfold trim.
  destruct (trimStart_split s) as (ws & Hs & Hws).
  destruct (trimEnd_split (trimStart s)) as (ws' & Hs' & Hws').
  split.
  - intros H. rewrite H in Hs'. simpl in Hs'.
    rewrite Hs, Hs'. by apply Forall_app.
  - intros H%trimStart_nil. by rewrite H.
Qed.

(** A trimmed string neither starts nor ends with white space. *)
Lemma trim_head s c : head (trim s) = Some c → isWhiteSpace c = false.
Proof.
  unfold trim. intros H.
  destruct (trimEnd_split (trimStart s)) as (ws & Hs & _).
  apply (trimStart_head s). rewrite Hs.
  by destruct (trimEnd (trimStart s)).
Qed.

Lemma trim_last s c : last (trim s) = Some c → isWhiteSpace c = false.
Proof. apply trimEnd_last. Qed.

(** Trimming keeps a contiguous part of the string. *)
Lemma trim_infix s : ∃ l r, s = l ++ trim s ++ r.
Proof.
  destruct (trimStart_split s) as (l & Hs & _).
  destruct (trimEnd_split (trimStart s)) as (r & Hs' & _).
  exists l, r. unfold trim. by rewrite <- Hs'.
Qed.
End Strings.

(** ** Validation *)

Lemma truthy_VString (s : list N) : truthy (VString s) = bool_decide (s ≠ []).
Proof. by destruct s. Qed.




Lemma lookup_report (c : bool) (k msg k' : string) (errors : gmap string (list N)) :
  report c k msg errors !! k'
  = if c && bool_decide (k = k') then Some (js msg) else errors !! k'.
Proof.
  unfold report. destruct c; simpl; [|done].
  case_bool_decide as Hk; [subst; apply lookup_insert_eq | by apply lookup_insert_ne].
Qed.

Lemma lookup_report_ne (c : bool) (k msg k' : string) (errors : gmap string (list N)) :
  k ≠ k' → report c k msg errors !! k' = errors !! k'.
Proof.
  intros Hk. rewrite lookup_report, (bool_decide_eq_false_2 _ Hk).
  by rewrite andb_false_r.
Qed.

Lemma lookup_report_eq (c : bool) (k msg : string) (errors : gmap string (list N)) :
  report c k msg errors !! k = if c then Some (js msg) else errors !! k.
Proof.
  rewrite lookup_report, (bool_decide_eq_true_2 _ eq_refl).
  by rewrite andb_true_r.
Qed.

Lemma lookup_report_Some (c : bool) (k msg k' : string)
    (errors : gmap string (list N)) (m : list N) :
  report c k msg errors !! k' = Some m →
  (k = k' ∧ m = js msg) ∨ errors !! k' = Some m.
Proof.
  rewrite lookup_report. destruct c; simpl; [|by right].
  case_bool_decide; [intros [= <-]; by left | by right].
Qed.

(** The errors object in terms of the values read. *)
Lemma form_errors_Some (formData : gmap string jsval) (errors : gmap string (list N)) :
  form_errors formData = Some errors ↔
  ∃ job_title company_name location skills_length,
    trim_of (prop formData "job_title") = Some job_title
    ∧ trim_of (prop formData "company_name") = Some company_name
    ∧ trim_of (prop formData "location") = Some location
    ∧ length_of (prop formData "skills") = Some skills_length
    ∧ errors =
        report (negb (truthy (prop formData "exp_level_category")))
          "exp_level_category" "Experience level is required"
        (report
          (strict_equal (prop formData "min_experience_years") (VString [])
           || number_lt (Number (prop formData "min_experience_years")) zero)
          "min_experience_years" "Valid minimum experience (0 or more) is required"
        (report (strict_equal skills_length (VNumber zero))
          "skills" "At least one skill is required (comma-separated)"
        (report (negb (truthy (prop formData "workplace")))
          "workplace" "Workplace type is required"
        (report (negb (truthy (VString location)))
          "location" "Location is required"
        (report (negb (truthy (VString company_name)))
          "company_name" "Company name is required"
        (report (negb (truthy (VString job_title)))
          "job_title" "Job title is required" ∅)))))).
Proof.
  unfold form_errors. split.
  - destruct (trim_of (prop formData "job_title")) as [t1|]; [|done].
    destruct (trim_of (prop formData "company_name")) as [t2|]; [|done].
    destruct (trim_of (prop formData "location")) as [t3|]; [|done].
    destruct (length_of (prop formData "skills")) as [len|]; [|done].
    simpl. intros [= <-]. by exists t1, t2, t3, len.
  - intros (t1 & t2 & t3 & len & -> & -> & -> & -> & ->). done.
Qed.

(** Only the seven checked fields are ever reported, each with a message
    that is not empty. *)
Lemma form_errors_fields (formData : gmap string jsval) errors k (msg : list N) :
  form_errors formData = Some errors → errors !! k = Some msg →
  k ∈ validated_fields ∧ msg ≠ [].
Proof.
  intros (t1 & t2 & t3 & len & _ & _ & _ & _ & ->)%form_errors_Some.
  intros H.
  repeat (apply lookup_report_Some in H as [[<- ->]|H];
          [split; [unfold validated_fields; set_solver | discriminate]|]).
  by rewrite lookup_empty in H.
Qed.

(** The outcome of validation does not depend on a property it never
    reads. *)
Lemma form_errors_insert_unread (formData : gmap string jsval) k v :
  k ∉ validated_fields →
  form_errors (<[k := v]> formData) = form_errors formData.
Proof.
  intros Hk. unfold form_errors, prop.
  rewrite !lookup_insert_ne; [done|..];
    intros ->; apply Hk; unfold validated_fields; set_solver.
Qed.

Lemma validateForm_Some (st : AppState) errors :
  form_errors st.(formData) = Some errors →
  validateForm st = Some (Nat.eqb (size errors) 0, setFormErrors (λ _, errors) st).
Proof. unfold validateForm. by intros ->. Qed.

Lemma size_zero_empty (errors : gmap string (list N)) :
  Nat.eqb (size errors) 0 = bool_decide (errors = ∅).
Proof.
  destruct (Nat.eqb_spec (size errors) 0) as [H|H]; symmetry.
  - apply bool_decide_eq_true. by apply map_size_empty_iff.
  - apply bool_decide_eq_false. by rewrite <- map_size_empty_iff.
Qed.

(** A form with errors: nothing is sent, the errors are stored. *)
Lemma handleSubmit_invalid fetch (st : AppState) errors :
  form_errors st.(formData) = Some errors → errors ≠ ∅ →
  handleSubmit fetch st = (setFormErrors (λ _, errors) st, []).
Proof.
  intros H Hne. unfold handleSubmit.
  rewrite (validateForm_Some _ _ H), size_zero_empty.
  by rewrite bool_decide_eq_false_2.
Qed.

(** A form without errors: one request, carrying the payload. *)
Lemma handleSubmit_valid fetch (st : AppState) :
  form_errors st.(formData) = Some ∅ →
  (handleSubmit fetch st).2 = [generate_request st.(formData)].
Proof.
  intros H. unfold handleSubmit.
  by rewrite (validateForm_Some _ _ H).
Qed.

Lemma prop_lookup (o : gmap string jsval) k v : o !! k = Some v → prop o k = v.
Proof. unfold prop. by intros ->. Qed.




(** ** Skills *)

Lemma skillsArray_normalized (value : list N) :
  Forall normalized_skill (skillsArray value).
Proof.
  apply Forall_forall. intros s [Hs (p & -> & Hp)%list_elem_of_fmap]%list_elem_of_filter.
  repeat split; [done | apply trim_head | apply trim_last |].
  pose proof (split_from_separator_free comma [] value) as Hfree.
  rewrite Forall_forall in Hfree. specialize (Hfree (not_elem_of_nil _) p Hp).
  destruct (trim_infix p) as (l & r & Hlr). intros Hin. apply Hfree.
  rewrite Hlr, !elem_of_app. auto.
Qed.

(** Nothing is kept exactly when the text is made of commas and white
    space only. *)
Lemma skillsArray_nil (value : list N) :
  skillsArray value = []
  ↔ Forall (λ c, isWhiteSpace c = true ∨ c = comma) value.
Proof.
  unfold skillsArray, split. split.
  - intros Hnil.
    rewrite <- (join_split_from comma [] value) at 1. simpl.
    apply join_Forall; [by right|].
    apply Forall_forall. intros p Hp.
    destruct (decide (trim p = [])) as [Hblank|Hne].
    + apply trim_nil in Hblank. eapply Forall_impl; [done|]. by left.
    + exfalso. eapply (filter_nil_not_elem_of _ _ (trim p)); [done..|].
      apply list_elem_of_fmap. eauto.
  - intros Hall.
    pose proof (split_from_Forall _ comma [] value Hall) as Hpieces.
    pose proof (split_from_separator_free comma [] value (not_elem_of_nil _)) as Hfree.
    induction (split_from comma [] value) as [|p ps IH]; [done|].
    apply Forall_cons_1 in Hpieces as [Hp Hps].
    apply Forall_cons_1 in Hfree as [Hfp Hfps].
    rewrite fmap_cons, filter_cons.
    assert (Hblank : trim p = []).
    { apply trim_nil, Forall_forall. intros c Hc.
      rewrite Forall_forall in Hp. destruct (Hp c Hc) as [?| ->]; done. }
    rewrite Hblank. rewrite decide_False by (intros ?; done). by apply IH.
Qed.

Lemma length_of_array_zero (items : list (list N)) :
  length_of (VArray items) = Some (VNumber (Num (inject_Z (Z.of_nat (length items)))))
  ∧ strict_equal (VNumber (Num (inject_Z (Z.of_nat (length items))))) (VNumber zero)
    = bool_decide (items = []).
Proof.
  split; [done|]. destruct items as [|p ps]; [done|].
  simpl. unfold Qeq_bool. simpl. reflexivity.
Qed.

(** The skills rule of validation on an array of skills. *)
Lemma skills_rule (formData : gmap string jsval) (items : list (list N)) errors :
  formData !! "skills" = Some (VArray items) →
  form_errors formData = Some errors →
  errors !! "skills" = if decide (items = []) then Some skills_required else None.
Proof.
  intros Hskills (t1 & t2 & t3 & len & _ & _ & _ & Hlen & ->)%form_errors_Some.
  rewrite (prop_lookup _ _ _ Hskills) in Hlen.
  destruct (length_of_array_zero items) as [Hl Hz].
  rewrite Hl in Hlen. injection Hlen as <-.
  rewrite !lookup_report_ne by done.
  rewrite lookup_report_eq, Hz.
  rewrite !lookup_report_ne by done. rewrite lookup_empty.
  destruct (decide (items = [])) as [->|Hne].
  - by rewrite bool_decide_eq_true_2.
  - by rewrite bool_decide_eq_false_2.
Qed.

(** C4. [handleSkillsChange] stores the comma-separated pieces of the
    text, each trimmed, without those that are empty after trimming; the
    skills field then fails validation, with its required-field message,
    if and only if that list is empty. *)
Theorem skills_split_trimmed_and_required (value : list N) (st : AppState) :
  (handleSkillsChange value st).(formData) !! "skills"
    = Some (VArray (filter (λ s, s ≠ []) (trim <$> split comma value)))
  ∧ join [comma] (split comma value) = value
  ∧ Forall (λ p, comma ∉ p) (split comma value)
  ∧ Forall normalized_skill (skillsArray value)
  ∧ (skillsArray value = []
     ↔ Forall (λ c, isWhiteSpace c = true ∨ c = comma) value)
  ∧ ∀ errors,
      form_errors (handleSkillsChange value st).(formData) = Some errors →
      (errors !! "skills" = Some skills_required ↔ skillsArray value = [])
      ∧ (errors !! "skills" = None ↔ skillsArray value ≠ []).
Proof.
  assert (Hstored : (handleSkillsChange value st).(formData) !! "skills"
                    = Some (VArray (skillsArray value))).
  { unfold handleSkillsChange.
    destruct (has_error _ _); simpl; apply lookup_insert_eq. }
  split; [exact Hstored|].
  split; [apply (join_split_from comma [] value)|].
  split; [apply split_from_separator_free, not_elem_of_nil|].
  split; [apply skillsArray_normalized|].
  split; [apply skillsArray_nil|].
  intros errors H. rewrite (skills_rule _ _ _ Hstored H).
  destruct (decide (skillsArray value = [])) as [Hnil|Hne].
  - split; (split; [done|]); [done | by intros ?].
  - split; (split; [done|]); [by intros ? | done].
Qed.

Lemma skills_split_trimmed_and_required_witness :
  skillsArray (js " , ,") = []
  ∧ form_errors (handleSkillsChange (js " , ,") filled_state).(formData)
    = Some {["skills" := skills_required]}
  ∧ ({["skills" := skills_required]} : gmap string (list N)) !! "skills"
    = Some skills_required.
Proof.
  split; [by vm_compute|]. split; [by vm_compute|].
  apply (skills_split_trimmed_and_required (js " , ,") filled_state).
  - by vm_compute.
  - by vm_compute.
Defined.

(** ** Salary bounds *)

(** C5, as stated, does not hold: with a minimum salary of 120000 and a
    maximum of 80000 the form passes validation, no error is reported on
    [max_salary], and the request is sent. *)
Lemma inverted_salary_passes_validation :
  inverted_salary_state.(formData) !! "min_salary" = Some (VNumber (Num 120000))
  ∧ inverted_salary_state.(formData) !! "max_salary" = Some (VNumber (Num 80000))
  ∧ number_lt (Num 80000) (Num 120000) = true
  ∧ form_errors inverted_salary_state.(formData) = Some ∅
  ∧ fst <$> validateForm inverted_salary_state = Some true
  ∧ length (handleSubmit (λ _, NetworkError) inverted_salary_state).2 = 1%nat.
Proof. by vm_compute. Qed.

(** C5, amended.  Validation has no rule on the salary bounds: its outcome
    is the same whatever [min_salary] and [max_salary] hold, and it never
    reports an error on either. *)
Theorem salary_bounds_not_validated
    (formData : gmap string jsval) (lo hi : jsval) (errors : gmap string (list N)) :
  form_errors formData = Some errors →
  form_errors (<["min_salary" := lo]> (<["max_salary" := hi]> formData)) = Some errors
  ∧ errors !! "min_salary" = None
  ∧ errors !! "max_salary" = None.
Proof.
  intros H. split; [|split].
  - rewrite !form_errors_insert_unread; [done|..];
      unfold validated_fields; set_solver.
  - destruct (errors !! "min_salary") as [msg|] eqn:Hm; [|done].
    destruct (form_errors_fields _ _ _ _ H Hm) as [Hin _].
    unfold validated_fields in Hin. set_solver.
  - destruct (errors !! "max_salary") as [msg|] eqn:Hm; [|done].
    destruct (form_errors_fields _ _ _ _ H Hm) as [Hin _].
    unfold validated_fields in Hin. set_solver.
Qed.

Lemma salary_bounds_not_validated_witness :
  form_errors filled_state.(formData) = Some ∅
  ∧ form_errors (<["min_salary" := VNumber (Num 120000)]>
                   (<["max_salary" := VNumber (Num 80000)]> filled_state.(formData)))
    = Some ∅
  ∧ (∅ : gmap string (list N)) !! "min_salary" = None
  ∧ (∅ : gmap string (list N)) !! "max_salary" = None.
Proof.
  split; [by vm_compute|].
  apply (salary_bounds_not_validated filled_state.(formData)).
  by vm_compute.
Defined.

(** ** Minimum experience *)

Lemma experience_rule (formData : gmap string jsval) errors :
  form_errors formData = Some errors →
  errors !! "min_experience_years"
  = if strict_equal (prop formData "min_experience_years") (VString [])
       || number_lt (Number (prop formData "min_experience_years")) zero
    then Some experience_invalid else None.
Proof.
  intros (t1 & t2 & t3 & len & _ & _ & _ & _ & ->)%form_errors_Some.
  rewrite !lookup_report_ne by done.
  rewrite lookup_report_eq.
  rewrite !lookup_report_ne by done. by rewrite lookup_empty.
Qed.




(** ** Submission of an invalid form *)

(** C7. A form that fails validation stops [handleSubmit] before the
    request: whatever the back end would answer, no request is issued, and
    the state it leaves differs from the one before only in the stored
    errors, each a message keyed by the name of a checked field. *)
Theorem invalid_form_is_not_sent
    (fetch : Request → FetchOutcome) (st : AppState) (errors : gmap string (list N)) :
  form_errors st.(formData) = Some errors →
  errors ≠ ∅ →
  validateForm st = Some (false, setFormErrors (λ _, errors) st)
  ∧ handleSubmit fetch st = (setFormErrors (λ _, errors) st, [])
  ∧ (∀ k msg, errors !! k = Some msg → k ∈ validated_fields ∧ msg ≠ []).
Proof.
  intros H Hne.
  split.
  { rewrite (validateForm_Some _ _ H), size_zero_empty.
    by rewrite bool_decide_eq_false_2. }
  split; [by apply handleSubmit_invalid|].
  intros k msg Hk. by eapply form_errors_fields.
Qed.

Lemma invalid_form_is_not_sent_witness :
  let errors : gmap string (list N) :=
    <["skills" := skills_required]> {["job_title" := job_title_required]} in
  form_errors partly_filled_state.(formData) = Some errors
  ∧ errors ≠ ∅
  ∧ handleSubmit (λ _, NetworkError) partly_filled_state
    = (setFormErrors (λ _, errors) partly_filled_state, []).
Proof.
  assert (H : form_errors partly_filled_state.(formData)
              = Some (<["skills" := skills_required]>
                        {["job_title" := job_title_required]}))
    by (vm_compute; reflexivity).
  split; [exact H|]. split; [apply insert_non_empty|].
  exact (proj1 (proj2 (invalid_form_is_not_sent (λ _, NetworkError)
                         partly_filled_state _ H (insert_non_empty _ _ _)))).
Defined.

(** ** The payload *)

Lemma salary_or_zero_null : salary_or_zero VNull = VNumber zero.
Proof. done. Qed.

Lemma salary_or_zero_zero : salary_or_zero (VNumber zero) = VNumber zero.
Proof. done. Qed.

Lemma prop_insert_eq (o : gmap string jsval) k v : prop (<[k := v]> o) k = v.
Proof. unfold prop. by rewrite lookup_insert_eq. Qed.

Lemma prop_insert_ne (o : gmap string jsval) k k' v :
  k ≠ k' → prop (<[k := v]> o) k' = prop o k'.
Proof. intros. unfold prop. by rewrite lookup_insert_ne. Qed.

(** The payload reads a salary bound only through [salary_or_zero]. *)
Lemma payload_min_salary (formData : gmap string jsval) v :
  payload (<["min_salary" := v]> formData)
  = <["min_experience_years" := VNumber (Number (prop formData "min_experience_years"))]>
      (<["max_salary" := salary_or_zero (prop formData "max_salary")]>
        (<["min_salary" := salary_or_zero v]> formData)).
Proof.
  unfold payload.
  rewrite prop_insert_eq, !prop_insert_ne by done.
  by rewrite insert_insert_eq.
Qed.

Lemma payload_max_salary (formData : gmap string jsval) v :
  payload (<["max_salary" := v]> formData)
  = <["min_experience_years" := VNumber (Number (prop formData "min_experience_years"))]>
      (<["max_salary" := salary_or_zero v]>
        (<["min_salary" := salary_or_zero (prop formData "min_salary")]> formData)).
Proof.
  unfold payload.
  rewrite prop_insert_eq, !prop_insert_ne by done.
  rewrite (insert_insert_ne _ "min_salary" "max_salary") by done.
  by rewrite insert_insert_eq.
Qed.

Lemma handleSubmit_requests fetch (st : AppState) :
  (handleSubmit fetch st).2
  = match form_errors st.(formData) with
    | Some errors =>
        if Nat.eqb (size errors) 0 then [generate_request st.(formData)] else []
    | None => []
    end.
Proof.
  unfold handleSubmit, validateForm.
  destruct (form_errors st.(formData)) as [errors|]; [|done]. simpl.
  by destruct (Nat.eqb (size errors) 0).
Qed.

(** C9. In the payload an unspecified ([null]) salary bound is replaced by
    the number 0, so the payload, and with it the request, is the same as
    for a bound of 0. *)
Theorem absent_salary_sent_as_zero
    (fetch : Request → FetchOutcome) (st : AppState) :
  let unset k := setFormData (λ prev, <[k := VNull]> prev) st in
  let zeroed k := setFormData (λ prev, <[k := VNumber zero]> prev) st in
  payload (unset "min_salary").(formData) !! "min_salary" = Some (VNumber zero)
  ∧ payload (unset "max_salary").(formData) !! "max_salary" = Some (VNumber zero)
  ∧ payload (unset "min_salary").(formData) = payload (zeroed "min_salary").(formData)
  ∧ payload (unset "max_salary").(formData) = payload (zeroed "max_salary").(formData)
  ∧ (handleSubmit fetch (unset "min_salary")).2
    = (handleSubmit fetch (zeroed "min_salary")).2
  ∧ (handleSubmit fetch (unset "max_salary")).2
    = (handleSubmit fetch (zeroed "max_salary")).2.
Proof.
  simpl.
  assert (Hmin : payload (<["min_salary" := VNull]> st.(formData))
                 = payload (<["min_salary" := VNumber zero]> st.(formData))).
  { by rewrite !payload_min_salary. }
  assert (Hmax : payload (<["max_salary" := VNull]> st.(formData))
                 = payload (<["max_salary" := VNumber zero]> st.(formData))).
  { by rewrite !payload_max_salary. }
  split.
  { rewrite payload_min_salary. rewrite !lookup_insert_ne by done.
    apply lookup_insert_eq. }
  split.
  { rewrite payload_max_salary. rewrite lookup_insert_ne by done.
    apply lookup_insert_eq. }
  split; [exact Hmin|]. split; [exact Hmax|].
  split.
  - rewrite !handleSubmit_requests. simpl formData.
    rewrite !form_errors_insert_unread by (unfold validated_fields; set_solver).
    unfold generate_request. by rewrite Hmin.
  - rewrite !handleSubmit_requests. simpl formData.
    rewrite !form_errors_insert_unread by (unfold validated_fields; set_solver).
    unfold generate_request. by rewrite Hmax.
Qed.

(** ** Frame of the change handlers *)

Lemma handleInputChange_formErrors (e : ChangeEvent) (st : AppState) :
  (handleInputChange e st).(formErrors)
  = if has_error st.(formErrors) e.(name)
    then delete e.(name) st.(formErrors) else st.(formErrors).
Proof. unfold handleInputChange. by destruct (has_error _ _). Qed.

Lemma handleSkillsChange_formErrors (value : list N) (st : AppState) :
  (handleSkillsChange value st).(formErrors)
  = if has_error st.(formErrors) "skills"
    then delete "skills" st.(formErrors) else st.(formErrors).
Proof. unfold handleSkillsChange. by destruct (has_error _ _). Qed.

(** C10. Editing a field removes at most that field's own error: the
    change handlers leave the error entries of all other fields and all
    other form-data fields as they were, and add no error. *)
Theorem change_touches_only_its_field
    (e : ChangeEvent) (text : list N) (st : AppState) (k : string) :
  (k ≠ e.(name) →
   (handleInputChange e st).(formData) !! k = st.(formData) !! k
   ∧ (handleInputChange e st).(formErrors) !! k = st.(formErrors) !! k)
  ∧ (k ≠ "skills" →
     (handleSkillsChange text st).(formData) !! k = st.(formData) !! k
     ∧ (handleSkillsChange text st).(formErrors) !! k = st.(formErrors) !! k)
  ∧ (handleInputChange e st).(formErrors) ⊆ st.(formErrors)
  ∧ (handleSkillsChange text st).(formErrors) ⊆ st.(formErrors).
Proof.
  rewrite handleInputChange_formErrors, handleSkillsChange_formErrors.
  split.
  { intros Hk. split.
    - unfold handleInputChange. destruct (has_error _ _); simpl;
        by rewrite lookup_insert_ne.
    - destruct (has_error _ _); [by rewrite lookup_delete_ne | done]. }
  split.
  { intros Hk. split.
    - unfold handleSkillsChange. destruct (has_error _ _); simpl;
        by rewrite lookup_insert_ne.
    - destruct (has_error _ _); [by rewrite lookup_delete_ne | done]. }
  split.
  - destruct (has_error _ _); [apply delete_subseteq | done].
  - destruct (has_error _ _); [apply delete_subseteq | done].
Qed.

Lemma change_touches_only_its_field_witness :
  let st := setFormErrors
    (λ _, <["skills" := skills_required]> {["job_title" := job_title_required]})
    partly_filled_state in
  let e := change "job_title" "Backend Engineer" "text" in
  ("skills" : string) ≠ e.(name)
  ∧ (handleInputChange e st).(formData) !! "skills" = st.(formData) !! "skills"
  ∧ (handleInputChange e st).(formErrors) !! "skills" = st.(formErrors) !! "skills".
Proof.
  intros st e. split; [discriminate|].
  exact (proj1 (change_touches_only_its_field e [] st "skills")
           ltac:(discriminate)).
Defined.

(** ** The term emphasizer *)

Section Emphasizer.
Import Emphasizer.
Implicit Types (t term s rest pre : list N) (terms : list (list N))
  (prev : option N) (segs : list segment).

Lemma match_prefix_Some term s after :
  match_prefix term s = Some after →
  s = take (length term) s ++ after
  ∧ casefold (take (length term) s) = term
  ∧ (length term ≤ length s)%nat.
Proof.
  revert s; induction term as [|a term IH]; intros s; simpl.
  - intros [= <-]. split; [done|]. split; [done | lia].
  - destruct s as [|b s]; [done|].
    destruct (N.eqb_spec a (fold_case b)) as [->|]; [|done].
    intros (Hs & Hfold & Hlen)%IH. simpl.
    split; [by rewrite <- Hs|]. split; [by rewrite Hfold | lia].
Qed.

Lemma matches_at_true term prev rest :
  matches_at term prev rest = true →
  term ≠ []
  ∧ ∃ after, match_prefix term rest = Some after
      ∧ mid_word prev (head rest) = false
      ∧ mid_word (last (take (length term) rest)) (head after) = false.
Proof.
  unfold matches_at. destruct term as [|a term]; [done|].
  destruct (match_prefix (a :: term) rest) as [after|]; [|done].
  intros [H1 H2]%andb_true_iff. split; [done|]. exists after.
  by rewrite negb_true_iff in H1, H2.
Qed.

Lemma longest_match_None terms prev rest :
  longest_match terms prev rest = None →
  ∀ t, t ∈ terms → matches_at t prev rest = false.
Proof.
  induction terms as [|u terms IH]; simpl; intros H t Ht.
  - by apply elem_of_nil in Ht.
  - destruct (matches_at u prev rest) eqn:Hu.
    + destruct (longest_match terms prev rest) as [b|]; [|done].
      by destruct (length u <? length b)%nat.
    + apply elem_of_cons in Ht as [->|Ht]; [done | by apply IH].
Qed.

(** The term chosen at a position is a candidate, matches there, and no
    candidate that matches there is longer. *)
Lemma longest_match_Some terms prev rest t :
  longest_match terms prev rest = Some t →
  t ∈ terms
  ∧ matches_at t prev rest = true
  ∧ ∀ t', t' ∈ terms → matches_at t' prev rest = true →
      (length t' ≤ length t)%nat.
Proof.
  revert t; induction terms as [|u terms IH]; intros t; simpl; [done|].
  destruct (matches_at u prev rest) eqn:Hu.
  - destruct (longest_match terms prev rest) as [b|] eqn:Hb.
    + destruct (Nat.ltb_spec (length u) (length b)) as [Hlt|Hge].
      * intros [= <-]. destruct (IH b eq_refl) as (Hin & Hm & Hmax).
        split; [by right|]. split; [done|].
        intros t' [->|Ht']%elem_of_cons Hm'; [lia | by apply Hmax].
      * intros [= <-]. destruct (IH b eq_refl) as (Hin & Hm & Hmax).
        split; [by left|]. split; [done|].
        intros t' [->|Ht']%elem_of_cons Hm'; [done|].
        specialize (Hmax t' Ht' Hm'). lia.
    + intros [= <-]. split; [by left|]. split; [done|].
      intros t' [->|Ht']%elem_of_cons Hm'; [done|].
      by rewrite (longest_match_None _ _ _ Hb t' Ht') in Hm'.
  - intros Ht. destruct (IH t Ht) as (Hin & Hm & Hmax).
    split; [by right|]. split; [done|].
    intros t' [->|Ht']%elem_of_cons Hm'; [congruence | by apply Hmax].
Qed.

(** The segments spell out the text, from the unit the scan resumes
    at. *)
Lemma plain_scan terms prev rest skip :
  plain (scan terms prev rest skip) = drop skip rest.
Proof.
  revert prev skip; induction rest as [|c rest IH]; intros prev skip.
  - by destruct skip.
  - destruct skip as [|k]; simpl; [|apply IH].
    destruct (longest_match terms prev (c :: rest)) as [t|] eqn:Ht.
    + apply longest_match_Some in Ht as (_ & Hm & _).
      apply matches_at_true in Hm as [Hne _].
      destruct t as [|a t]; [done|]. unfold plain in *. simpl.
      rewrite IH, Nat.sub_0_r. f_equal. apply take_drop.
    + unfold plain in *. simpl. by rewrite IH.
Qed.

Lemma plain_cons g segs : plain (g :: segs) = text_of g ++ plain segs.
Proof. done. Qed.

Lemma last_cons_from (c : N) pre prev :
  from_option Some prev (last (c :: pre)) = from_option Some (Some c) (last pre).
Proof. rewrite last_cons. by destruct (last pre). Qed.

(** Where a bold segment stands in the text, and why it is there. *)
Lemma scan_bold terms prev rest skip A s B :
  scan terms prev rest skip = A ++ Bold s :: B →
  ∃ pre t,
    rest = pre ++ s ++ plain B
    ∧ (skip ≤ length pre)%nat
    ∧ plain A = drop skip pre
    ∧ longest_match terms (from_option Some prev (last pre)) (s ++ plain B) = Some t
    ∧ s = take (length t) (s ++ plain B).
Proof.
  revert prev skip A; induction rest as [|c rest IH]; intros prev skip A; simpl.
  { by destruct A. }
  destruct skip as [|k].
  - destruct (longest_match terms prev (c :: rest)) as [t|] eqn:Ht.
    + pose proof Ht as (_ & (Hne & _)%matches_at_true & _)%longest_match_Some.
      destruct t as [|a t]; [done|].
      replace (length (a :: t) - 1)%nat with (length t) by (simpl; lia).
      change (take (length (a :: t)) (c :: rest)) with (c :: take (length t) rest).
      destruct A as [|g A]; simpl.
      * intros [= <- <-]. exists [], (a :: t).
        assert (Hrest : c :: take (length t) rest
                          ++ plain (scan terms (Some c) rest (length t)) = c :: rest).
        { rewrite plain_scan. f_equal. apply take_drop. }
        injection Hrest as Hrest. simpl. rewrite !Hrest.
        split; [done|]. split; [lia|]. split; [done|]. split; [exact Ht | done].
      * intros [= <- H]. destruct (IH _ _ _ H) as (pre & u & Hr & Hk & HA & Hu & Hs).
        exists (c :: pre), u. rewrite last_cons_from.
        split; [simpl; by rewrite <- Hr|]. split; [simpl; lia|].
        split; [|by split].
        rewrite plain_cons, HA. simpl. f_equal.
        rewrite Hr at 1. rewrite take_app_le by done. apply take_drop.
    + destruct A as [|g A]; simpl; [done|].
      intros [= <- H]. destruct (IH _ _ _ H) as (pre & u & Hr & Hk & HA & Hu & Hs).
      exists (c :: pre), u. rewrite last_cons_from.
      split; [simpl; by rewrite <- Hr|]. split; [simpl; lia|].
      split; [|by split].
      rewrite plain_cons, HA. by rewrite drop_0.
  - intros H. destruct (IH _ _ _ H) as (pre & u & Hr & Hk & HA & Hu & Hs).
    exists (c :: pre), u. rewrite last_cons_from.
    split; [simpl; by rewrite <- Hr|]. split; [simpl; lia|].
    split; [exact HA|by split].
Qed.

Lemma candidates_spec (skills keywords : list (list N)) t :
  t ∈ candidates skills keywords
  ↔ t ≠ [] ∧ ∃ k, k ∈ skills ++ keywords ∧ t = casefold k.
Proof.
  unfold candidates.
  rewrite elem_of_remove_dups, list_elem_of_filter, list_elem_of_fmap.
  naive_solver.
Qed.
End Emphasizer.

Section EmphasizerClaims.
Import Emphasizer.

Lemma emphasized_plain_raw (raw : list N) (skills keywords : list (list N)) :
  emphasized_plain (emphasize raw skills keywords) = raw.
Proof. unfold emphasize, segments. simpl. by rewrite plain_scan. Qed.

Lemma emphasized_html_nil (skills keywords : list (list N)) :
  emphasized_html (emphasize [] skills keywords) = [].
Proof. done. Qed.

Lemma prop_outbound_success (r : GenerationResult) :
  prop (outbound_success r) "status" = VString (js "success")
  ∧ prop (outbound_success r) "job_description" = VString r.(emphasized_html)
  ∧ prop (outbound_success r) "raw_description" = VString r.(emphasized_plain).
Proof.
  unfold prop, outbound_success. simpl.
  rewrite lookup_insert_eq.
  rewrite !(lookup_insert_ne _ "status") by done.
  rewrite lookup_insert_eq.
  rewrite (lookup_insert_ne _ "job_description") by done.
  by rewrite lookup_insert_eq.
Qed.

(** What a successful answer leaves as the text to copy. *)
Lemma receive_success_rawResult status (data : gmap string jsval) (st : AppState) :
  ok status = true →
  prop data "status" = VString (js "success") →
  (receive (Response status (Some data)) st).(rawResult)
  = or_else (prop data "raw_description") (prop data "job_description").
Proof. intros Hok Hs. unfold receive. by rewrite Hok, Hs. Qed.

Lemma handleSubmit_state fetch (st : AppState) :
  form_errors st.(formData) = Some ∅ →
  (handleSubmit fetch st).1
  = setLoading false
      (receive (fetch (generate_request st.(formData)))
         (setRawResult (VString [])
            (setResult (VString [])
               (setSuccess []
                  (setError (VString [])
                     (setLoading true (setFormErrors (λ _, ∅) st))))))).
Proof.
  intros H. unfold handleSubmit. by rewrite (validateForm_Some _ _ H).
Qed.

(** C1. The plain rendering of the emphasizer is the raw text, whatever
    the terms and however many of them match; and it is what the form
    keeps as the text to copy: after a successful submission answered
    with the emphasized result, the clipboard target is the raw text,
    and copying hands exactly that text to the clipboard. *)
Theorem plain_rendering_is_raw_text
    (raw : list N) (skills keywords : list (list N)) :
  emphasized_plain (emphasize raw skills keywords) = raw
  ∧ ∀ (fetch : Request → FetchOutcome) (status : N) (st : AppState) (written : bool),
      form_errors st.(formData) = Some ∅ →
      ok status = true →
      fetch (generate_request st.(formData))
        = Response status (Some (outbound_success (emphasize raw skills keywords))) →
      (handleSubmit fetch st).1.(rawResult) = VString raw
      ∧ (handleCopyToClipboard written (handleSubmit fetch st).1).2
        = if decide (raw = []) then None else Some (VString raw).
Proof.
  split; [apply emphasized_plain_raw|].
  intros fetch status st written Hvalid Hok Hfetch.
  assert (Hraw : (handleSubmit fetch st).1.(rawResult) = VString raw).
  { rewrite (handleSubmit_state _ _ Hvalid), Hfetch.
    change (rawResult (setLoading false ?s)) with (rawResult s).
    destruct (prop_outbound_success (emphasize raw skills keywords))
      as (Hs & Hhtml & Hplain).
    rewrite (receive_success_rawResult _ _ _ Hok Hs), Hhtml, Hplain.
    rewrite emphasized_plain_raw. unfold or_else.
    destruct raw as [|c raw]; [|reflexivity]. cbn [truthy].
    by rewrite emphasized_html_nil. }
  split; [done|].
  unfold handleCopyToClipboard. rewrite Hraw.
  by destruct raw.
Qed.

Lemma plain_rendering_is_raw_text_witness :
  let raw := js "We need a Backend Engineer skilled in Go and Docker." in
  let skills := [js "Go"; js "Docker"] in
  emphasized_html (emphasize raw skills [])
    = js "We need a Backend Engineer skilled in <b>Go</b> and <b>Docker</b>."
  ∧ form_errors filled_state.(formData) = Some ∅
  ∧ (handleSubmit (emphasizing_backend raw skills []) filled_state).1.(rawResult)
    = VString raw
  ∧ (handleCopyToClipboard true
       (handleSubmit (emphasizing_backend raw skills []) filled_state).1).2
    = Some (VString raw).
Proof.
  intros raw skills.
  split; [vm_compute; reflexivity|]. split; [vm_compute; reflexivity|].
  exact (proj2 (plain_rendering_is_raw_text raw skills [])
           (emphasizing_backend raw skills []) 200 filled_state true
           ltac:(vm_compute; reflexivity) eq_refl eq_refl).
Defined.

(** C2. Overlapping candidates are resolved longest match first.  Every
    bold segment is a stretch of the text, outside the other segments,
    that spells a skill or keyword up to case; it neither begins nor
    ends inside a word, so a term inside an unrelated word is not
    matched; and no candidate matching at its start is longer, so a term
    inside a longer matched term is not wrapped on its own.  With skills
    "Go" and "Google Cloud", only "Google Cloud" is wrapped in
    "Experience with Google Cloud required". *)
Theorem longest_match_first :
  (∀ (raw : list N) (skills keywords : list (list N))
     (A B : list segment) (s : list N),
     segments raw skills keywords = A ++ Bold s :: B →
     raw = plain A ++ s ++ plain B
     ∧ s ≠ []
     ∧ (∃ k, k ∈ skills ++ keywords ∧ casefold s = casefold k)
     ∧ mid_word (last (plain A)) (head s) = false
     ∧ mid_word (last s) (head (plain B)) = false
     ∧ ∀ t, t ∈ candidates skills keywords →
         matches_at t (last (plain A)) (s ++ plain B) = true →
         (length t ≤ length s)%nat)
  ∧ segments (js "Experience with Google Cloud required")
      [js "Go"; js "Google Cloud"] []
    = (Plain <$> js "Experience with ") ++ Bold (js "Google Cloud")
      :: (Plain <$> js " required")
  ∧ emphasized_html (emphasize (js "Experience with Google Cloud required")
                       [js "Go"; js "Google Cloud"] [])
    = js "Experience with <b>Google Cloud</b> required"
  ∧ matches_at (js "google cloud") (Some 32) (js "Google Cloud required") = true
  ∧ matches_at (js "go") (Some 32) (js "Google Cloud required") = false.
Proof.
  split; [|by vm_compute].
  intros raw skills keywords A B s H.
  destruct (scan_bold _ _ _ _ _ _ _ H) as (pre & t & Hraw & _ & HA & Ht & Hs).
  rewrite drop_0 in HA. subst pre. simpl in Ht.
  assert (Hprev : from_option Some None (last (plain A)) = last (plain A)).
  { by destruct (last (plain A)). }
  rewrite Hprev in Ht.
  destruct (longest_match_Some _ _ _ _ Ht) as (Hin & Hm & Hmax).
  destruct (matches_at_true _ _ _ Hm) as (Hne & after & Hafter & Hl & Hr).
  destruct (match_prefix_Some _ _ _ Hafter) as (Hsplit & Hfold & Hlen).
  rewrite <- Hs in Hsplit, Hfold, Hr.
  apply app_inv_head in Hsplit. subst after.
  assert (Hlens : length s = length t).
  { rewrite <- Hfold. unfold casefold. by rewrite length_map. }
  assert (Hsne : s ≠ []).
  { intros ->. by destruct t. }
  apply candidates_spec in Hin as [_ (k & Hk & Htk)].
  repeat split; try done.
  - exists k. by rewrite Hfold.
  - by destruct s.
  - intros t' Ht' Hm'. rewrite Hlens. by apply Hmax.
Qed.

Lemma longest_match_first_witness :
  let raw := js "Go to Google Cloud" in
  let skills := [js "Go"; js "Google Cloud"] in
  raw = plain [Bold (js "Go"); Plain 32; Plain 116; Plain 111; Plain 32]
        ++ js "Google Cloud" ++ plain []
  ∧ mid_word (Some 32) (head (js "Google Cloud")) = false.
Proof.
  pose proof (proj1 longest_match_first (js "Go to Google Cloud")
                [js "Go"; js "Google Cloud"] []
                [Bold (js "Go"); Plain 32; Plain 116; Plain 111; Plain 32] []
                (js "Google Cloud") ltac:(by vm_compute)) as H.
  split; [exact (proj1 H) | exact (proj1 (proj2 (proj2 (proj2 H))))].
Defined.
End EmphasizerClaims.

(** ** Dates *)

Section Dates.
Import Date.
Local Open Scope Z_scope.

(** Within an era, the year of era is below 400 and the day of year
    below 366. *)
Lemma year_of_era_bounds (doe : Z) :
  0 <= doe <= 146096 →
  let yoe := (doe - doe / 1460 + doe / 36524 - doe / 146096) / 365 in
  let doy := doe - (365 * yoe + yoe / 4 - yoe / 100) in
  0 <= yoe <= 399 ∧ 0 <= doy <= 365.
Proof.
  intros H yoe doy. subst doy yoe.
  Z.div_mod_to_equations. lia.
Qed.

(** The calendar date of a day number leads back to it: the month is one
    of the twelve, and the first of that month plus the day of month is
    the day number. *)
Lemma civil_from_days_inverse (z : Z) :
  let '(y, m, d) := civil_from_days z in
  1 <= m <= 12 ∧ 1 <= d <= 31 ∧ days_from_civil y m 1 + d - 1 = z.
Proof.
  unfold civil_from_days, days_from_civil.
  set (z' := z + 719468).
  set (era := z' / 146097). set (doe := z' mod 146097).
  assert (Hdoe : 0 <= doe <= 146096) by (subst doe; Z.div_mod_to_equations; lia).
  assert (Hz : z' = era * 146097 + doe) by (subst era doe; Z.div_mod_to_equations; lia).
  destruct (year_of_era_bounds doe Hdoe) as [Hyoe Hdoy].
  set (yoe := (doe - doe / 1460 + doe / 36524 - doe / 146096) / 365) in *.
  set (doy := doe - (365 * yoe + yoe / 4 - yoe / 100)) in *.
  set (mp := (5 * doy + 2) / 153).
  assert (Hmp : 0 <= mp <= 11) by (subst mp; Z.div_mod_to_equations; lia).
  assert (Hd : 1 <= doy - (153 * mp + 2) / 5 + 1 <= 31)
    by (subst mp; Z.div_mod_to_equations; lia).
  set (m := if mp <? 10 then mp + 3 else mp - 9).
  assert (Hm : 1 <= m <= 12 ∧ (if 2 <? m then m - 3 else m + 9) = mp
               ∧ (m <=? 2) = negb (mp <? 10)).
  { subst m. destruct (Z.ltb_spec mp 10).
    - destruct (Z.ltb_spec 2 (mp + 3)); [|lia].
      destruct (Z.leb_spec (mp + 3) 2); [lia|]. simpl. lia.
    - destruct (Z.ltb_spec 2 (mp - 9)); [lia|].
      destruct (Z.leb_spec (mp - 9) 2); [|lia]. simpl. lia. }
  destruct Hm as (Hm & Hmp' & Hle).
  split; [done|]. split; [done|].
  rewrite Hmp'.
  replace (yoe + era * 400 + (if m <=? 2 then 1 else 0) - (if m <=? 2 then 1 else 0))
    with (yoe + era * 400) by lia.
  replace ((yoe + era * 400) / 400) with era by (Z.div_mod_to_equations; lia).
  replace ((yoe + era * 400) mod 400) with yoe by (Z.div_mod_to_equations; lia).
  subst doy z'. lia.
Qed.

(** Thirty days on: the day and the time of day of [t + 30 days]. *)
Lemma Day_plus_30 (t : Z) :
  Day (t + 30 * msPerDay) = Day t + 30
  ∧ TimeWithinDay (t + 30 * msPerDay) = TimeWithinDay t.
Proof.
  unfold Day, TimeWithinDay, msPerDay. split.
  - by rewrite Z.div_add.
  - by rewrite Z.mod_add.
Qed.

(** Setting the day of month to its value plus [n] moves the local
    time by [n] whole days. *)
Lemma MakeDate_shift (t n : Z) :
  MakeDate (MakeDay (YearFromTime t) (MonthFromTime t) (DateFromTime t + n))
    (TimeWithinDay t)
  = t + n * msPerDay.
Proof.
  unfold MakeDate, MakeDay, YearFromTime, MonthFromTime, DateFromTime.
  pose proof (civil_from_days_inverse (Day t)) as H.
  destruct (civil_from_days (Day t)) as [[y m] d]. simpl.
  destruct H as (Hm & Hd & Hday).
  replace ((m - 1) / 12) with 0 by (Z.div_mod_to_equations; lia).
  replace ((m - 1) mod 12 + 1) with m by (Z.div_mod_to_equations; lia).
  rewrite Z.add_0_r.
  replace (days_from_civil y m 1 + (d + n) - 1) with (Day t + n) by lia.
  unfold Day, TimeWithinDay, msPerDay. Z.div_mod_to_equations. lia.
Qed.
End Dates.

Section Deadline.
Import Date.
Local Open Scope Z_scope.

Lemma split_from_prefix (sep : N) (cur p r : list N) :
  sep ∉ p →
  split_from sep cur (p ++ sep :: r) = (cur ++ p) :: split_from sep [] r.
Proof.
  revert cur; induction p as [|c p IH]; intros cur Hp; simpl.
  - by rewrite N.eqb_refl, app_nil_r.
  - apply not_elem_of_cons in Hp as [Hc Hp].
    destruct (N.eqb_spec c sep) as [->|_]; [done|].
    rewrite IH by done. by rewrite <- app_assoc.
Qed.

Lemma pad_digits (w : nat) (n : N) :
  Forall (λ c, (48 <= c <= 57)%N) (pad w n).
Proof.
  revert n; induction w as [|w IH]; intros n; cbn [pad]; [constructor|].
  apply Forall_app. split; [apply IH|].
  constructor; [|constructor].
  assert (H : (n mod 10 < 10)%N) by (apply N.mod_upper_bound; lia).
  revert H. generalize (n mod 10)%N. intros r Hr. lia.
Qed.

(** A date in ISO form has no [T] in it. *)
Lemma iso_date_no_T (day : Z) : 84%N ∉ iso_date day.
Proof.
  assert (Hpad : ∀ w n, 84%N ∉ padZ w n).
  { intros w n Hin. unfold padZ in Hin.
    pose proof (pad_digits w (Z.to_N n)) as H.
    rewrite Forall_forall in H. specialize (H _ Hin). lia. }
  unfold iso_date. destruct (civil_from_days day) as [[y m] d].
  rewrite !elem_of_app, !list_elem_of_singleton.
  assert (Hy : 84%N ∉ iso_year y).
  { unfold iso_year. destruct ((0 <=? y) && (y <=? 9999)); [apply Hpad|].
    rewrite elem_of_cons. intros [Hs|Hin]; [|by eapply Hpad].
    by destruct (y <? 0). }
  intros [?|[?|[?|[?|?]]]]; try done; by eapply Hpad.
Qed.

(** The part of the ISO string before [T] is the date of the day. *)
Lemma date_part_iso_date (t : Z) : date_part t = iso_date (Day t).
Proof.
  unfold date_part, toISOString, split. simpl app.
  by rewrite (split_from_prefix 84%N [] _ _ (iso_date_no_T (Day t))).
Qed.

Lemma TimeClip_valid (t : Z) :
  Z.abs t <= 8640000000000000 → TimeClip t = Some t.
Proof.
  intros H. unfold TimeClip. by destruct (Z.leb_spec (Z.abs t) 8640000000000000); [|lia].
Qed.

Lemma reset_deadline_date (now : Z) :
  Z.abs (now + 30 * msPerDay) <= 8640000000000000 →
  reset_deadline now = Some (iso_date (Day now + 30)).
Proof.
  intros H. unfold reset_deadline, new_Date.
  change (30 * 24 * 60 * 60 * 1000) with (30 * msPerDay).
  rewrite (TimeClip_valid _ H). simpl.
  rewrite date_part_iso_date. by destruct (Day_plus_30 now) as [-> _].
Qed.

Lemma mount_deadline_date (LocalTZA : Z → bool → Z) (now : Z) :
  Z.abs (UTC LocalTZA (LocalTime LocalTZA now + 30 * msPerDay)) <= 8640000000000000 →
  mount_deadline LocalTZA now
  = Some (iso_date (Day (UTC LocalTZA (LocalTime LocalTZA now + 30 * msPerDay)))).
Proof.
  intros H. unfold mount_deadline, setDate, getDate.
  rewrite MakeDate_shift, (TimeClip_valid _ H). simpl.
  by rewrite date_part_iso_date.
Qed.
End Deadline.

Section DeadlineClaim.
Import Date.
Local Open Scope Z_scope.

Lemma payload_deadline (formData : gmap string jsval) :
  payload formData !! "deadline" = formData !! "deadline".
Proof. unfold payload. by rewrite !lookup_insert_ne. Qed.

(** C8, as stated, does not hold: a submission whose deadline field is
    empty sends the empty string, not the date thirty days after the
    day of submission (which the reset handler would compute as
    2023-01-31 at the sample time). *)
Lemma cleared_deadline_sent_empty :
  cleared_deadline_state.(formData) !! "deadline" = Some (VString [])
  ∧ form_errors cleared_deadline_state.(formData) = Some ∅
  ∧ (λ rq, rq.(body) !! "deadline")
      <$> (handleSubmit (λ _, NetworkError) cleared_deadline_state).2
    = [Some (VString [])]
  ∧ reset_deadline sample_now = Some (js "2023-01-31").
Proof.
  split; [vm_compute; reflexivity|]. split; [vm_compute; reflexivity|].
  split; vm_compute; reflexivity.
Qed.

(** C8, amended.  The default deadline is set when the form is reset or
    mounted, not at submission.  Reset stores the UTC calendar date of
    the day thirty days after the current UTC day.  Mount stores the UTC
    calendar date of the instant thirty local calendar days ahead, which
    is that same date when the host's offset from UTC is the same at both
    instants.  Submission sends the deadline field as it stands. *)
Theorem default_deadline_on_mount_and_reset :
  (∀ (now : Z) (st : AppState),
     Z.abs (now + 30 * msPerDay) <= 8640000000000000 →
     ∃ st', handleResetForm now st = Some st'
       ∧ st'.(formData) !! "deadline" = Some (VString (iso_date (Day now + 30))))
  ∧ (∀ (LocalTZA : Z → bool → Z) (now : Z) (st : AppState),
       let ahead := UTC LocalTZA (LocalTime LocalTZA now + 30 * msPerDay) in
       Z.abs ahead <= 8640000000000000 →
       ∃ st', mount_effect LocalTZA now st = Some st'
         ∧ st'.(formData) !! "deadline" = Some (VString (iso_date (Day ahead)))
         ∧ (LocalTZA (LocalTime LocalTZA now + 30 * msPerDay) false
              = LocalTZA now true →
            Day ahead = Day now + 30))
  ∧ (∀ (fetch : Request → FetchOutcome) (st : AppState),
       form_errors st.(formData) = Some ∅ →
       ∃ rq, (handleSubmit fetch st).2 = [rq]
         ∧ rq.(body) !! "deadline" = st.(formData) !! "deadline").
Proof.
  split; [|split].
  - intros now st H. unfold handleResetForm.
    rewrite (reset_deadline_date now H). simpl.
    eexists. split; [reflexivity|]. reflexivity.
  - intros LocalTZA now st ahead H. unfold mount_effect.
    rewrite (mount_deadline_date LocalTZA now H). simpl.
    eexists. split; [reflexivity|]. split; [apply lookup_insert_eq|].
    intros Htz. subst ahead. unfold UTC, LocalTime in *. rewrite Htz.
    replace (now + LocalTZA now true + 30 * msPerDay - LocalTZA now true)
      with (now + 30 * msPerDay) by lia.
    by destruct (Day_plus_30 now) as [-> _].
  - intros fetch st H. exists (generate_request st.(formData)).
    split; [by apply handleSubmit_valid|]. apply payload_deadline.
Qed.

Lemma default_deadline_on_mount_and_reset_witness :
  (∃ st', handleResetForm sample_now filled_state = Some st'
     ∧ st'.(formData) !! "deadline"
       = Some (VString (iso_date (Day sample_now + 30))))
  ∧ iso_date (Day sample_now + 30) = js "2023-01-31"
  ∧ mount_deadline sample_zone sample_now = Some (js "2023-01-31").
Proof.
  split; [|split; vm_compute; reflexivity].
  apply (proj1 default_deadline_on_mount_and_reset sample_now filled_state).
  vm_compute. discriminate.
Defined.
End DeadlineClaim.

(** * Further properties of the form *)

(** ** Validation as a whole *)

Lemma strict_equal_empty_string (v : jsval) :
  strict_equal v (VString []) = true ↔ v = VString [].
Proof.
  destruct v as [| |b|n|s|items|]; simpl; try (split; discriminate).
  unfold string_eq. rewrite bool_decide_eq_true. split; congruence.
Qed.

Lemma report_empty (c : bool) (k msg : string) (errors : gmap string (list N)) :
  report c k msg errors = ∅ ↔ c = false ∧ errors = ∅.
Proof.
  unfold report. destruct c.
  - split; [intros H; by apply insert_non_empty in H | intros [? _]; done].
  - split; [done | by intros [_ ?]].
Qed.

(** The form passes validation exactly when the three texts are not
    blank, a workplace and a level are chosen, there is at least one
    skill, and the experience is neither empty nor negative. *)
Theorem validation_passes_iff
    (formData : gmap string jsval) (title company location workplace level : list N)
    (skills : list (list N)) :
  formData !! "job_title" = Some (VString title) →
  formData !! "company_name" = Some (VString company) →
  formData !! "location" = Some (VString location) →
  formData !! "workplace" = Some (VString workplace) →
  formData !! "skills" = Some (VArray skills) →
  formData !! "exp_level_category" = Some (VString level) →
  form_errors formData = Some ∅
  ↔ trim title ≠ [] ∧ trim company ≠ [] ∧ trim location ≠ []
    ∧ workplace ≠ [] ∧ skills ≠ []
    ∧ prop formData "min_experience_years" ≠ VString []
    ∧ number_lt (Number (prop formData "min_experience_years")) zero = false
    ∧ level ≠ [].
Proof.
  intros Ht Hc Hl Hw Hs Hv.
  rewrite form_errors_Some.
  rewrite (prop_lookup _ _ _ Ht), (prop_lookup _ _ _ Hc), (prop_lookup _ _ _ Hl),
    (prop_lookup _ _ _ Hw), (prop_lookup _ _ _ Hs), (prop_lookup _ _ _ Hv).
  destruct (length_of_array_zero skills) as [Hlen Hzero].
  split.
  - intros (t1 & t2 & t3 & len & [= <-] & [= <-] & [= <-] & Hlen' & HE).
    rewrite Hlen in Hlen'. injection Hlen' as <-.
    symmetry in HE. rewrite !report_empty, Hzero in HE.
    destruct HE as (H7 & H6 & H5 & H4 & H3 & H2 & H1 & _).
    rewrite !negb_false_iff, !truthy_VString, !bool_decide_eq_true in *.
    apply orb_false_iff in H6 as [H6a H6b].
    apply bool_decide_eq_false in H5.
    split; [done|]. split; [done|]. split; [done|]. split; [done|].
    split; [done|]. split; [|by split].
    intros Heq. apply strict_equal_empty_string in Heq. congruence.
  - intros (H1 & H2 & H3 & H4 & H5 & H6a & H6b & H7).
    eexists _, _, _, _.
    split; [reflexivity|]. split; [reflexivity|]. split; [reflexivity|].
    split; [exact Hlen|].
    symmetry. rewrite !report_empty, Hzero.
    rewrite !negb_false_iff, !truthy_VString, !bool_decide_eq_true.
    rewrite orb_false_iff, bool_decide_eq_false.
    split; [done|]. split.
    { split; [|done].
      destruct (strict_equal (prop formData "min_experience_years") (VString []))
        eqn:E; [|done].
      exfalso. apply H6a. by apply strict_equal_empty_string. }
    split; [done|]. split; [done|]. split; [done|]. split; [done|]. by split.
Qed.

Lemma validation_passes_iff_witness :
  form_errors filled_state.(formData) = Some ∅
  ∧ trim (js "Backend Engineer") ≠ [].
Proof.
  assert (H : form_errors filled_state.(formData) = Some ∅)
    by (vm_compute; reflexivity).
  split; [exact H|].
  exact (proj1 (proj1 (validation_passes_iff filled_state.(formData)
                         (js "Backend Engineer") (js "Acme") (js "Lahore")
                         (js "Remote") (js "Mid Level") [js "Go"; js "Docker"]
                         eq_refl eq_refl eq_refl eq_refl eq_refl eq_refl) H)).
Defined.

(** A required text made of white space only is rejected like an empty
    one: each of the three text fields is reported exactly when all its
    characters are white space. *)
Theorem blank_text_is_reported
    (formData : gmap string jsval) (errors : gmap string (list N))
    (k : string) (s : list N) :
  k ∈ ["job_title"; "company_name"; "location"]%string →
  form_errors formData = Some errors →
  formData !! k = Some (VString s) →
  is_Some (errors !! k) ↔ Forall (λ c, isWhiteSpace c = true) s.
Proof.
  intros Hk (t1 & t2 & t3 & len & H1 & H2 & H3 & _ & ->)%form_errors_Some Hs.
  rewrite <- trim_nil.
  apply elem_of_cons in Hk as [->|Hk];
    [|apply elem_of_cons in Hk as [->|Hk];
      [|apply list_elem_of_singleton in Hk as ->]].
  - rewrite (prop_lookup _ _ _ Hs) in H1. injection H1 as <-.
    rewrite !lookup_report_ne by done. rewrite lookup_report_eq, lookup_empty.
    rewrite truthy_VString.
    destruct (decide (trim s = [])) as [E|E].
    + rewrite bool_decide_eq_false_2 by (intros ?; done). simpl. split; [done|eauto].
    + rewrite bool_decide_eq_true_2 by done. simpl. split; [by intros [? ?]|done].
  - rewrite (prop_lookup _ _ _ Hs) in H2. injection H2 as <-.
    rewrite !lookup_report_ne by done. rewrite lookup_report_eq.
    rewrite !lookup_report_ne by done. rewrite lookup_empty.
    rewrite truthy_VString.
    destruct (decide (trim s = [])) as [E|E].
    + rewrite bool_decide_eq_false_2 by (intros ?; done). simpl. split; [done|eauto].
    + rewrite bool_decide_eq_true_2 by done. simpl. split; [by intros [? ?]|done].
  - rewrite (prop_lookup _ _ _ Hs) in H3. injection H3 as <-.
    rewrite !lookup_report_ne by done. rewrite lookup_report_eq.
    rewrite !lookup_report_ne by done. rewrite lookup_empty.
    rewrite truthy_VString.
    destruct (decide (trim s = [])) as [E|E].
    + rewrite bool_decide_eq_false_2 by (intros ?; done). simpl. split; [done|eauto].
    + rewrite bool_decide_eq_true_2 by done. simpl. split; [by intros [? ?]|done].
Qed.

Lemma blank_text_is_reported_witness :
  let formData :=
    (handleInputChange (change "company_name" "   " "text") filled_state).(formData) in
  let errors : gmap string (list N) :=
    {["company_name" := js "Company name is required"]} in
  form_errors formData = Some errors
  ∧ formData !! "company_name" = Some (VString (js "   "))
  ∧ is_Some (errors !! "company_name").
Proof.
  intros formData errors.
  assert (H : form_errors formData = Some errors) by (vm_compute; reflexivity).
  split; [exact H|]. split; [vm_compute; reflexivity|].
  assert (Hin : ("company_name" : string)
                ∈ ["job_title"; "company_name"; "location"]%string)
    by (apply list_elem_of_further, list_elem_of_here).
  assert (Hs : formData !! "company_name" = Some (VString (js "   ")))
    by (vm_compute; reflexivity).
  assert (Hblank : Forall (λ c, isWhiteSpace c = true) (js "   "))
    by (vm_compute; repeat constructor).
  exact (proj2 (blank_text_is_reported formData errors "company_name" (js "   ")
                  Hin H Hs) Hblank).
Defined.

(** ** Validation that raises *)

Lemma trim_of_Some (v : jsval) : is_Some (trim_of v) ↔ ∃ s, v = VString s.
Proof.
  destruct v; simpl; split; try (intros [? ?]; discriminate); eauto.
Qed.

Lemma length_of_Some (v : jsval) :
  is_Some (length_of v) ↔ v ≠ VUndefined ∧ v ≠ VNull.
Proof.
  destruct v; simpl; split; try (intros [? ?]; done); try (intros [? ?]; discriminate);
    eauto.
Qed.

(** Validation completes exactly when the three required texts are
    strings and the skills are neither [undefined] nor [null]; otherwise it
    raises, and then [handleSubmit] sends nothing and leaves the state as
    it was. *)
Theorem validation_raises_iff
    (fetch : Request → FetchOutcome) (st : AppState) :
  (is_Some (form_errors st.(formData))
   ↔ (∃ s, prop st.(formData) "job_title" = VString s)
     ∧ (∃ s, prop st.(formData) "company_name" = VString s)
     ∧ (∃ s, prop st.(formData) "location" = VString s)
     ∧ prop st.(formData) "skills" ≠ VUndefined
     ∧ prop st.(formData) "skills" ≠ VNull)
  ∧ (form_errors st.(formData) = None → handleSubmit fetch st = (st, [])).
Proof.
  split.
  - split.
    + intros [errors (t1 & t2 & t3 & len & H1 & H2 & H3 & H4 & _)%form_errors_Some].
      split; [apply trim_of_Some; eauto|]. split; [apply trim_of_Some; eauto|].
      split; [apply trim_of_Some; eauto|]. apply length_of_Some. eauto.
    + intros (H1 & H2 & H3 & H4 & H5).
      apply trim_of_Some in H1 as [t1 H1]. apply trim_of_Some in H2 as [t2 H2].
      apply trim_of_Some in H3 as [t3 H3].
      destruct (proj2 (length_of_Some _) (conj H4 H5)) as [len Hlen].
      eexists. apply form_errors_Some. exists t1, t2, t3, len.
      split; [done|]. split; [done|]. split; [done|]. split; [done|]. reflexivity.
  - intros H. unfold handleSubmit, validateForm. by rewrite H.
Qed.

Lemma validation_raises_iff_witness :
  let st := setFormData (λ prev, delete "job_title" prev) filled_state in
  form_errors st.(formData) = None
  ∧ handleSubmit (λ _, NetworkError) st = (st, []).
Proof.
  intros st.
  assert (H : form_errors st.(formData) = None) by (vm_compute; reflexivity).
  split; [exact H|].
  exact (proj2 (validation_raises_iff (λ _, NetworkError) st) H).
Defined.

(** ** Requests *)

(** [handleSubmit] sends one request, a POST of the payload to the
    generation endpoint, when the form passes validation, and none in every
    other case; it never changes the form data. *)
Theorem one_request_iff_valid (fetch : Request → FetchOutcome) (st : AppState) :
  ((handleSubmit fetch st).2
     = [ {| url := "http://localhost:8000/generate_job_description";
            method := "POST";
            body := payload st.(formData) |} ]
   ↔ form_errors st.(formData) = Some ∅)
  ∧ ((handleSubmit fetch st).2 = [] ↔ form_errors st.(formData) ≠ Some ∅)
  ∧ (handleSubmit fetch st).1.(formData) = st.(formData).
Proof.
  rewrite handleSubmit_requests.
  assert (Hdata : (handleSubmit fetch st).1.(formData) = st.(formData)).
  { unfold handleSubmit, validateForm.
    destruct (form_errors st.(formData)) as [errors|]; [|done]. simpl.
    destruct (Nat.eqb (size errors) 0); [|done].
    simpl. unfold receive.
    destruct (fetch _) as [|status [data|]]; [done| |done].
    by destruct (ok status && strict_equal _ _). }
  destruct (form_errors st.(formData)) as [errors|].
  - rewrite size_zero_empty.
    destruct (decide (errors = ∅)) as [->|Hne].
    + rewrite bool_decide_eq_true_2 by done.
      split; [done|]. split; [|done]. split; [done|]. by intros H.
    + rewrite bool_decide_eq_false_2 by done.
      split; [split; [done | intros [= ?]; done]|].
      split; [|done]. split; [intros _ [= ?]; done | done].
  - split; [split; done|]. split; [|done]. split; done.
Qed.

(** ** The answer to a submission *)

Lemma truthy_or_else (a b : jsval) :
  truthy (or_else a b) = truthy a || truthy b.
Proof. unfold or_else. by destruct (truthy a) eqn:E; [rewrite E|]. Qed.

Lemma receive_success (outcome : FetchOutcome) (st : AppState) :
  is_success outcome = true →
  ∃ status data, outcome = Response status (Some data)
    ∧ receive outcome st
      = setSuccess (js "Job description generated successfully!")
          (setRawResult
             (or_else (prop data "raw_description") (prop data "job_description"))
             (setResult (prop data "job_description") st)).
Proof.
  destruct outcome as [|status [data|]]; try discriminate. simpl.
  intros H. exists status, data. by rewrite H.
Qed.

Lemma receive_failure (outcome : FetchOutcome) (st : AppState) :
  is_success outcome = false →
  ∃ message, receive outcome st = setError message st ∧ truthy message = true.
Proof.
  destruct outcome as [|status [data|]]; simpl.
  - intros _. eexists. split; reflexivity.
  - intros ->. eexists. split; [reflexivity|].
    rewrite truthy_or_else. apply orb_true_r.
  - intros _. eexists. split; reflexivity.
Qed.



(** ** The result panel and the copy button *)

(** Every handler keeps the result copyable, and [handleSubmit] does so
    from any state of a form that passes validation; hence whenever the
    result panel is rendered the copy button is enabled, and the copy
    handler writes nothing exactly when the button is disabled. *)
Theorem shown_result_can_be_copied :
  result_copyable initial_state
  ∧ (∀ fetch st, result_copyable st → result_copyable (handleSubmit fetch st).1)
  ∧ (∀ fetch st, form_errors st.(formData) = Some ∅ →
       result_copyable (handleSubmit fetch st).1)
  ∧ (∀ e st, result_copyable st → result_copyable (handleInputChange e st))
  ∧ (∀ text st, result_copyable st → result_copyable (handleSkillsChange text st))
  ∧ (∀ written st, result_copyable st →
       result_copyable (handleCopyToClipboard written st).1)
  ∧ (∀ now st st', handleResetForm now st = Some st' → result_copyable st')
  ∧ (∀ zone now st st', mount_effect zone now st = Some st' →
       result_copyable st → result_copyable st')
  ∧ (∀ st, result_copyable st → result_shown st = true → copy_disabled st = false)
  ∧ (∀ written st,
       (handleCopyToClipboard written st).2 = None ↔ copy_disabled st = true).
Proof.
  assert (Hvalid : ∀ fetch st, form_errors st.(formData) = Some ∅ →
                     result_copyable (handleSubmit fetch st).1).
  { intros fetch st H. unfold result_copyable.
    rewrite (handleSubmit_state _ _ H).
    destruct (is_success (fetch (generate_request st.(formData)))) eqn:Hs.
    - match goal with
      | |- context [receive ?o ?s] =>
          destruct (receive_success o s Hs) as (status & data & _ & ->)
      end.
      simpl. rewrite truthy_or_else. intros ->. apply orb_true_r.
    - match goal with
      | |- context [receive ?o ?s] =>
          destruct (receive_failure o s Hs) as (message & -> & _)
      end.
      simpl. discriminate. }
  split; [discriminate|]. split.
  { intros fetch st Hst. unfold handleSubmit at 1, validateForm.
    destruct (form_errors st.(formData)) as [errors|] eqn:He; [|done].
    simpl. rewrite size_zero_empty.
    destruct (decide (errors = ∅)) as [->|Hne].
    - rewrite bool_decide_eq_true_2 by done.
      specialize (Hvalid fetch st He). unfold handleSubmit, validateForm in Hvalid.
      by rewrite He in Hvalid.
    - by rewrite bool_decide_eq_false_2. }
  split; [exact Hvalid|]. split.
  { intros e st Hst. unfold handleInputChange. by destruct (has_error _ _). }
  split.
  { intros text st Hst. unfold handleSkillsChange. by destruct (has_error _ _). }
  split.
  { intros written st Hst. unfold handleCopyToClipboard.
    destruct (negb (truthy st.(rawResult))); [done|]. by destruct written. }
  split.
  { intros now st st'. unfold handleResetForm.
    destruct (reset_deadline now); [|done]. simpl. intros [= <-]. discriminate. }
  split.
  { intros zone now st st'. unfold mount_effect.
    destruct (mount_deadline zone now); [|done]. simpl. by intros [= <-]. }
  split.
  { intros st Hst. unfold result_shown, copy_disabled.
    intros [Hr _]%andb_true_iff. by rewrite (Hst Hr). }
  intros written st. unfold handleCopyToClipboard, copy_disabled.
  destruct (negb (truthy st.(rawResult))); simpl; split; done.
Qed.

Lemma shown_result_can_be_copied_witness :
  let backend := emphasizing_backend (js "We need Go.") [js "Go"] [] in
  form_errors filled_state.(formData) = Some ∅
  ∧ result_shown (handleSubmit backend filled_state).1 = true
  ∧ copy_disabled (handleSubmit backend filled_state).1 = false.
Proof.
  intros backend.
  assert (H : form_errors filled_state.(formData) = Some ∅)
    by (vm_compute; reflexivity).
  assert (Hshown : result_shown (handleSubmit backend filled_state).1 = true)
    by (vm_compute; reflexivity).
  split; [exact H|]. split; [exact Hshown|].
  destruct shown_result_can_be_copied as (_ & _ & Hvalid & _ & _ & _ & _ & _ & Hview & _).
  exact (Hview _ (Hvalid backend filled_state H) Hshown).
Defined.

(** ** Edits compose *)

Lemma handleInputChange_unfold (e : ChangeEvent) (st : AppState) :
  handleInputChange e st
  = setFormErrors
      (λ prev, if has_error st.(formErrors) e.(name) then delete e.(name) prev else prev)
      (setFormData (λ prev, <[e.(name) := processedValue e]> prev) st).
Proof.
  unfold handleInputChange, processedValue.
  by destruct (has_error st.(formErrors) e.(name)); destruct st.
Qed.

Lemma has_error_delete_ne (errors : gmap string (list N)) (k k' : string) :
  k ≠ k' → has_error (delete k errors) k' = has_error errors k'.
Proof. intros H. unfold has_error. by rewrite lookup_delete_ne. Qed.

Lemma has_error_delete_eq (errors : gmap string (list N)) (k : string) :
  has_error (delete k errors) k = false.
Proof. unfold has_error. by rewrite lookup_delete_eq. Qed.

(** Edits of two different fields can be made in either order. *)
Theorem edits_of_different_fields_commute (e1 e2 : ChangeEvent) (st : AppState) :
  e1.(name) ≠ e2.(name) →
  handleInputChange e1 (handleInputChange e2 st)
  = handleInputChange e2 (handleInputChange e1 st).
Proof.
  intros Hne. rewrite !handleInputChange_unfold.
  destruct st as [fd ld res err suc cop errs raw].
  unfold setFormErrors, setFormData. simpl.
  f_equal.
  - by apply insert_insert_ne.
  - destruct (has_error errs e1.(name)) eqn:H1, (has_error errs e2.(name)) eqn:H2;
      rewrite ?has_error_delete_ne, ?H1, ?H2 by done; try done.
    apply delete_delete.
Qed.

Lemma edits_of_different_fields_commute_witness :
  let e1 := change "job_title" "Backend Engineer" "text" in
  let e2 := change "min_salary" "80000" "number" in
  e1.(name) ≠ e2.(name)
  ∧ handleInputChange e1 (handleInputChange e2 initial_state)
    = handleInputChange e2 (handleInputChange e1 initial_state).
Proof.
  intros e1 e2.
  assert (H : e1.(name) ≠ e2.(name)) by discriminate.
  split; [exact H|].
  exact (edits_of_different_fields_commute e1 e2 initial_state H).
Defined.

(** Of two edits of the same field the later one decides: the state is
    the one the later edit alone would give. *)
Theorem later_edit_of_a_field_wins (e1 e2 : ChangeEvent) (st : AppState) :
  e1.(name) = e2.(name) →
  handleInputChange e2 (handleInputChange e1 st) = handleInputChange e2 st.
Proof.
  intros Heq. rewrite !handleInputChange_unfold.
  destruct st as [fd ld res err suc cop errs raw].
  unfold setFormErrors, setFormData. simpl. rewrite Heq.
  f_equal.
  - apply insert_insert_eq.
  - destruct (has_error errs e2.(name)) eqn:H2.
    + by rewrite has_error_delete_eq.
    + by rewrite H2.
Qed.

Lemma later_edit_of_a_field_wins_witness :
  let e1 := change "location" "Lahor" "text" in
  let e2 := change "location" "Lahore" "text" in
  e1.(name) = e2.(name)
  ∧ handleInputChange e2 (handleInputChange e1 initial_state)
    = handleInputChange e2 initial_state.
Proof.
  intros e1 e2. split; [reflexivity|].
  exact (later_edit_of_a_field_wins e1 e2 initial_state eq_refl).
Defined.

(** An edit of a field that validation does not read (the salary bounds,
    the deadline, the notes, the preferences) leaves the outcome of
    validation as it was. *)
Theorem edit_of_unchecked_field_keeps_validation (e : ChangeEvent) (st : AppState) :
  e.(name) ∉ validated_fields →
  form_errors (handleInputChange e st).(formData) = form_errors st.(formData).
Proof.
  intros H. rewrite handleInputChange_unfold. simpl.
  by apply form_errors_insert_unread.
Qed.

Lemma edit_of_unchecked_field_keeps_validation_witness :
  let e := change "deadline" "" "date" in
  (e.(name) ∉ validated_fields)
  ∧ form_errors (handleInputChange e filled_state).(formData)
    = form_errors filled_state.(formData).
Proof.
  intros e.
  assert (H : e.(name) ∉ validated_fields)
    by (unfold validated_fields; simpl; set_solver).
  split; [exact H|].
  exact (edit_of_unchecked_field_keeps_validation e filled_state H).
Defined.

(** ** Number inputs that are emptied *)

(** Emptying a salary input stores [null], which the payload sends as 0;
    emptying the experience input stores the empty string, which
    validation rejects whenever it completes. *)
Theorem emptied_number_inputs (k : string) (st : AppState) :
  let emptied k := handleInputChange {| name := k; value := []; type := "number" |} st in
  (k ∈ ["min_salary"; "max_salary"]%string →
   (emptied k).(formData) !! k = Some VNull
   ∧ payload (emptied k).(formData) !! k = Some (VNumber zero))
  ∧ (emptied "min_experience_years").(formData) !! "min_experience_years"
    = Some (VString [])
  ∧ ∀ errors,
      form_errors (emptied "min_experience_years").(formData) = Some errors →
      errors !! "min_experience_years" = Some experience_invalid.
Proof.
  intros emptied. subst emptied. cbv beta.
  split; [|split].
  - intros [->|Hk]%elem_of_cons; [|apply list_elem_of_singleton in Hk as ->];
      rewrite handleInputChange_unfold; simpl.
    + split; [apply lookup_insert_eq|].
      rewrite payload_min_salary. rewrite !lookup_insert_ne by done.
      apply lookup_insert_eq.
    + split; [apply lookup_insert_eq|].
      rewrite payload_max_salary. rewrite lookup_insert_ne by done.
      apply lookup_insert_eq.
  - rewrite handleInputChange_unfold. simpl. apply lookup_insert_eq.
  - intros errors H. rewrite (experience_rule _ _ H).
    rewrite handleInputChange_unfold. simpl. by rewrite prop_insert_eq.
Qed.

Lemma emptied_number_inputs_witness :
  let st :=
    handleInputChange {| name := "min_salary"; value := []; type := "number" |}
      inverted_salary_state in
  inverted_salary_state.(formData) !! "min_salary" = Some (VNumber (Num 120000))
  ∧ st.(formData) !! "min_salary" = Some VNull
  ∧ payload st.(formData) !! "min_salary" = Some (VNumber zero).
Proof.
  intros st. split; [vm_compute; reflexivity|].
  exact (proj1 (emptied_number_inputs "min_salary" inverted_salary_state)
           ltac:(apply list_elem_of_here)).
Defined.

(** ** The skills box *)

Lemma trimStart_id (s : list N) :
  (∀ c, head s = Some c → isWhiteSpace c = false) → trimStart s = s.
Proof.
  destruct s as [|c s]; [done|]. intros H. simpl. by rewrite (H c eq_refl).
Qed.

Lemma trim_normalized (s : list N) : normalized_skill s → trim s = s.
Proof.
  intros (_ & Hhead & Hlast & _). unfold trim, trimEnd.
  rewrite (trimStart_id s Hhead).
  rewrite trimStart_id; [apply rev_involutive|].
  intros c Hc. apply Hlast. by rewrite <- last_rev_head, rev_involutive in Hc.
Qed.

Lemma split_from_whole (sep : N) (cur p : list N) :
  sep ∉ p → split_from sep cur p = [cur ++ p].
Proof.
  revert cur; induction p as [|c p IH]; intros cur Hp; simpl.
  - by rewrite app_nil_r.
  - apply not_elem_of_cons in Hp as [Hc Hp].
    destruct (N.eqb_spec c sep) as [->|_]; [done|].
    rewrite IH by done. by rewrite <- app_assoc.
Qed.

(** The pieces of the text shown for a list of skills, read with a
    leading space or without. *)
Lemma skills_text_pieces (lead : bool) (skills : list (list N)) :
  Forall normalized_skill skills → skills ≠ [] →
  filter (λ s, s ≠ [])
    (trim <$> split_from comma (if lead then [32] else []) (skills_text skills))
  = skills.
Proof.
  intros Hall. revert lead. induction Hall as [|s skills Hs Hall IH]; [done|].
  intros lead _. pose proof Hs as (Hne & _ & _ & Hcomma).
  assert (Htrim : trim ((if lead then [32] else []) ++ s) = s).
  { destruct lead; [|by apply trim_normalized].
    transitivity (trim s); [|by apply trim_normalized]. reflexivity. }
  destruct skills as [|s' skills].
  - unfold skills_text. simpl join. rewrite split_from_whole by done.
    rewrite list_fmap_singleton, Htrim.
    rewrite filter_cons, decide_True by done. done.
  - unfold skills_text in *.
    change (join (js ", ") (s :: s' :: skills))
      with (s ++ comma :: 32 :: join (js ", ") (s' :: skills)).
    rewrite split_from_prefix by done.
    rewrite fmap_cons, Htrim, filter_cons, decide_True by done.
    f_equal. exact (IH true ltac:(done)).
Qed.

(** The text the skills box shows for the stored skills reads back as
    the same skills, so showing and reading again changes nothing. *)
Theorem skills_text_reads_back (skills : list (list N)) (text : list N) :
  (Forall normalized_skill skills → skillsArray (skills_text skills) = skills)
  ∧ skillsArray (skills_text (skillsArray text)) = skillsArray text.
Proof.
  assert (H : ∀ l, Forall normalized_skill l → skillsArray (skills_text l) = l).
  { intros l Hl. destruct l as [|s l]; [done|].
    exact (skills_text_pieces false (s :: l) Hl ltac:(done)). }
  split; [apply H|]. apply H, skillsArray_normalized.
Qed.

Lemma skills_text_reads_back_witness :
  Forall normalized_skill [js "Go"; js "Google Cloud"]
  ∧ skills_text [js "Go"; js "Google Cloud"] = js "Go, Google Cloud"
  ∧ skillsArray (skills_text [js "Go"; js "Google Cloud"])
    = [js "Go"; js "Google Cloud"].
Proof.
  assert (H : Forall normalized_skill [js "Go"; js "Google Cloud"]).
  { change [js "Go"; js "Google Cloud"] with (skillsArray (js "Go,Google Cloud")).
    apply skillsArray_normalized. }
  split; [exact H|]. split; [vm_compute; reflexivity|].
  exact (proj1 (skills_text_reads_back [js "Go"; js "Google Cloud"] []) H).
Defined.

(** ** The payload *)

Lemma salary_or_zero_number (v : jsval) :
  ∃ n, salary_or_zero v = VNumber n
    ∧ (∀ m, v = VNumber m → n = m).
Proof.
  unfold salary_or_zero. eexists. split; [reflexivity|].
  intros m ->. reflexivity.
Qed.

(** The payload carries every field of the form as it is, except that
    the two salary bounds and the experience are always numbers; building
    the payload of a payload changes nothing. *)
Theorem payload_numbers_and_frame (formData : gmap string jsval) (k : string) :
  (k ∉ ["min_salary"; "max_salary"; "min_experience_years"]%string →
   payload formData !! k = formData !! k)
  ∧ (k ∈ ["min_salary"; "max_salary"; "min_experience_years"]%string →
     ∃ n, payload formData !! k = Some (VNumber n)
       ∧ (∀ m, formData !! k = Some (VNumber m) → n = m))
  ∧ payload (payload formData) = payload formData.
Proof.
  assert (Hmin : payload formData !! "min_salary"
                 = Some (salary_or_zero (prop formData "min_salary"))).
  { unfold payload. rewrite !lookup_insert_ne by done. apply lookup_insert_eq. }
  assert (Hmax : payload formData !! "max_salary"
                 = Some (salary_or_zero (prop formData "max_salary"))).
  { unfold payload. rewrite lookup_insert_ne by done. apply lookup_insert_eq. }
  assert (Hexp : payload formData !! "min_experience_years"
                 = Some (VNumber (Number (prop formData "min_experience_years")))).
  { unfold payload. apply lookup_insert_eq. }
  split; [|split].
  - intros Hk. unfold payload.
    rewrite !lookup_insert_ne; [done|..]; intros <-; apply Hk; set_solver.
  - intros [->|[->|Hk]%elem_of_cons]%elem_of_cons;
      [| |apply list_elem_of_singleton in Hk as ->].
    + rewrite Hmin.
      destruct (salary_or_zero_number (prop formData "min_salary")) as (n & -> & Hn).
      exists n. split; [done|]. intros m Hm. apply Hn. by apply prop_lookup.
    + rewrite Hmax.
      destruct (salary_or_zero_number (prop formData "max_salary")) as (n & -> & Hn).
      exists n. split; [done|]. intros m Hm. apply Hn. by apply prop_lookup.
    + rewrite Hexp. eexists. split; [done|]. intros m Hm.
      by rewrite (prop_lookup _ _ _ Hm).
  - unfold payload at 1.
    rewrite (prop_lookup _ _ _ Hmin), (prop_lookup _ _ _ Hmax), (prop_lookup _ _ _ Hexp).
    destruct (salary_or_zero_number (prop formData "min_salary")) as (n1 & H1 & _).
    destruct (salary_or_zero_number (prop formData "max_salary")) as (n2 & H2 & _).
    rewrite H1, H2.
    change (salary_or_zero (VNumber n1)) with (VNumber n1).
    change (salary_or_zero (VNumber n2)) with (VNumber n2).
    change (Number (VNumber ?n)) with n.
    rewrite <- H1, <- H2.
    rewrite (insert_id (payload formData) "min_salary") by exact Hmin.
    rewrite (insert_id (payload formData) "max_salary") by exact Hmax.
    by rewrite (insert_id (payload formData) "min_experience_years") by exact Hexp.
Qed.

Lemma payload_numbers_and_frame_witness :
  (("deadline" : string)
     ∉ ["min_salary"; "max_salary"; "min_experience_years"]%string)
  ∧ payload filled_state.(formData) !! "deadline"
    = filled_state.(formData) !! "deadline".
Proof.
  assert (H : ("deadline" : string)
              ∉ ["min_salary"; "max_salary"; "min_experience_years"]%string)
    by set_solver.
  split; [exact H|].
  exact (proj1 (payload_numbers_and_frame filled_state.(formData) "deadline") H).
Defined.

(** ** Reset *)

Lemma mount_deadline_constant_zone (offset now : Z) :
  mount_deadline (λ _ _, offset) now = reset_deadline now.
Proof.
  unfold mount_deadline, reset_deadline, Date.setDate, Date.getDate, Date.new_Date.
  rewrite MakeDate_shift. unfold Date.UTC, Date.LocalTime.
  f_equal. f_equal. unfold Date.msPerDay. lia.
Qed.

Lemma blank_form_deadline (deadline : list N) :
  blank_form deadline = <["deadline" := VString deadline]> (blank_form []).
Proof.
  apply map_eq. intros k. unfold blank_form. simpl.
  repeat (rewrite !lookup_insert; case_decide; [done|]).
  done.
Qed.

Lemma blank_form_errors (deadline : list N) :
  form_errors (blank_form deadline)
  = Some (list_to_map
            [("job_title", js "Job title is required");
             ("company_name", js "Company name is required");
             ("location", js "Location is required");
             ("workplace", js "Workplace type is required");
             ("skills", js "At least one skill is required (comma-separated)");
             ("exp_level_category", js "Experience level is required")]%string).
Proof.
  rewrite blank_form_deadline.
  rewrite form_errors_insert_unread by (unfold validated_fields; set_solver).
  vm_compute. reflexivity.
Qed.

(** Resetting gives the form a freshly mounted page has (for a host whose
    offset from UTC is fixed), whatever was entered or shown before; that
    form fails validation on six fields, so nothing can be sent from it
    until it is filled in. *)
Theorem reset_is_a_fresh_mount
    (fetch : Request → FetchOutcome) (offset now : Z) (st st' : AppState) :
  st.(loading) = false →
  handleResetForm now st = Some st' →
  mount_effect (λ _ _, offset) now initial_state = Some st'
  ∧ (∃ errors, form_errors st'.(formData) = Some errors ∧ size errors = 6%nat)
  ∧ (handleSubmit fetch st').2 = [].
Proof.
  intros Hld. unfold handleResetForm, mount_effect.
  rewrite mount_deadline_constant_zone.
  destruct (reset_deadline now) as [deadline|]; [|done].
  cbn [mbind option_bind]. intros [= <-].
  split; [|split].
  - f_equal. unfold initial_state, setFormData, setCopied, setSuccess, setError,
      setRawResult, setResult, setFormErrors.
    cbn [formData loading result error success copied formErrors rawResult].
    by rewrite Hld, <- blank_form_deadline.
  - eexists. split; [apply blank_form_errors|]. vm_compute. reflexivity.
  - rewrite handleSubmit_requests.
    unfold setFormData, setCopied, setSuccess, setError, setRawResult, setResult,
      setFormErrors.
    cbn [formData]. rewrite blank_form_errors.
    vm_compute. reflexivity.
Qed.

Lemma reset_is_a_fresh_mount_witness :
  filled_state.(loading) = false
  ∧ ∃ st', handleResetForm sample_now filled_state = Some st'
      ∧ mount_effect sample_zone sample_now initial_state = Some st'.
Proof.
  split; [reflexivity|].
  destruct (handleResetForm sample_now filled_state) as [st'|] eqn:H;
    [|vm_compute in H; discriminate].
  exists st'. split; [reflexivity|].
  exact (proj1 (reset_is_a_fresh_mount (λ _, NetworkError) 18000000 sample_now
                  filled_state st' eq_refl H)).
Defined.
